(** * Authentication and favorites slice of the movie recommendation backend

    Shallow embedding of the Express/mongoose backend server:
    the JSON values handlers receive and send, the user collection with
    its document save pipeline (pre-save password hook), the bearer-token
    middleware [authenticateToken], and the register, login and favorites
    handlers.  Handlers run in a small state and exception monad over the
    store, and every store access, token check, bcrypt call and catalog
    call is appended to an effect log. *)

From Stdlib Require Import String Ascii List ZArith Bool Lia.
Import ListNotations.
Open Scope string_scope.
Open Scope Z_scope.

(** ** JSON values *)

Set Warnings "-register-all".

(** Values of a parsed request body or of a response body.  JS numbers
    are modelled by their integer values; [Date] values by millisecond
    timestamps. *)
Inductive json : Type :=
| JUndef
| JNull
| JBool (b : bool)
| JNum (n : Z)
| JStr (s : string)
| JArr (xs : list json)
| JObj (fields : list (string * json)).

(** Property access [o.k]: [undefined] when absent or not an object. *)
Definition prop (o : json) (k : string) : json :=
  match o with
  | JObj fs =>
      match find (fun kv => String.eqb (fst kv) k) fs with
      | Some (_, v) => v
      | None => JUndef
      end
  | _ => JUndef
  end.

(** JS truthiness, as used by [!x] and [filter(Boolean)]. *)
Definition truthy (v : json) : bool :=
  match v with
  | JUndef | JNull => false
  | JBool b => b
  | JNum n => negb (Z.eqb n 0)
  | JStr s => negb (String.eqb s "")
  | JArr _ | JObj _ => true
  end.

(** JS strict equality [===]; two objects or arrays built from different
    sources are different references. *)
Definition strict_eq (a b : json) : bool :=
  match a, b with
  | JUndef, JUndef | JNull, JNull => true
  | JBool x, JBool y => Bool.eqb x y
  | JNum x, JNum y => Z.eqb x y
  | JStr x, JStr y => String.eqb x y
  | _, _ => false
  end.

(** [s.split(' ')]: the fields between single spaces; [''.split(' ')]
    is [['']]. *)
Fixpoint js_split_space (s : string) : list string :=
  match s with
  | EmptyString => [""]
  | String c rest =>
      let r := js_split_space rest in
      if Ascii.eqb c " "%char then "" :: r
      else match r with
           | h :: t => String c h :: t
           | [] => [String c ""]
           end
  end.

(** Decimal digits. *)
Definition digit_value (c : ascii) : option Z :=
  let n := Z.of_nat (nat_of_ascii c) in
  if (48 <=? n) && (n <=? 57) then Some (n - 48) else None.

Fixpoint parse_digits (s : string) (acc : Z) : option Z :=
  match s with
  | EmptyString => Some acc
  | String c rest =>
      match digit_value c with
      | Some d => parse_digits rest (acc * 10 + d)
      | None => None
      end
  end.

(** [Number(s)] on a non-empty string of decimal digits with an optional
    leading minus sign; other spellings (surrounding blanks, exponents,
    hexadecimal, fractions) are not modelled and count as not a number. *)
Definition parse_decimal (s : string) : option Z :=
  match s with
  | EmptyString => None
  | String c rest =>
      if Ascii.eqb c "-"%char then
        match rest with
        | EmptyString => None
        | _ => option_map Z.opp (parse_digits rest 0)
        end
      else parse_digits s 0
  end.

Definition digit_char (d : Z) : ascii := ascii_of_nat (Z.to_nat (48 + d)).

Fixpoint nat_digits (fuel : nat) (n : Z) (acc : string) : string :=
  match fuel with
  | O => acc
  | S f =>
      let acc' := String (digit_char (n mod 10)) acc in
      if n <? 10 then acc' else nat_digits f (n / 10) acc'
  end.

(** [String(n)] for an integer below [1e21] in absolute value. *)
Definition z_to_string (z : Z) : string :=
  let fuel := S (Z.to_nat (Z.log2 (Z.abs z))) in
  if z <? 0 then "-" ++ nat_digits fuel (- z) "" else nat_digits fuel z "".

(** mongoose's cast of a query or document value to a [String] path. *)
Definition cast_string (v : json) : option string :=
  match v with
  | JStr s => Some s
  | JNum n => Some (z_to_string n)
  | JBool true => Some "true"
  | JBool false => Some "false"
  | _ => None
  end.

(** mongoose's cast of a value to a [Number] path. *)
Definition cast_number (v : json) : option Z :=
  match v with
  | JNum n => Some n
  | JStr s => parse_decimal s
  | JBool true => Some 1
  | JBool false => Some 0
  | _ => None
  end.

(** A 24 digit hexadecimal string, the form [findById] casts to an
    [ObjectId]. *)
Fixpoint all_hex (s : string) : bool :=
  match s with
  | EmptyString => true
  | String c rest =>
      let n := nat_of_ascii c in
      ((48 <=? n)%nat && (n <=? 57)%nat || (97 <=? n)%nat && (n <=? 102)%nat
       || (65 <=? n)%nat && (n <=? 70)%nat) && all_hex rest
  end.

Definition is_object_id (s : string) : bool :=
  Nat.eqb (String.length s) 24 && all_hex s.

(** ** The user collection ([userSchema]) *)

Record favorite := mkFavorite {
  fav_movieId : Z;
  fav_addedAt : Z
}.

Record watchlist := mkWatchlist {
  wl_name : string;
  wl_movies : list favorite;
  wl_createdAt : Z
}.

(** A user document.  [password] is [None] in a result read with
    [.select('-password')]. *)
Record user := mkUser {
  _id : string;
  username : string;
  email : string;
  password : option string;
  favorites : list favorite;
  watchlists : list watchlist
}.

(** [.select('-password')]. *)
Definition without_password (u : user) : user :=
  mkUser (_id u) (username u) (email u) None (favorites u) (watchlists u).

(** ** Handler effects *)

(** What a handler run does outside the store contents: store reads and
    writes, token verification, bcrypt hashing and comparison, and
    external catalog requests. *)
Inductive event := ERead | EWrite | EVerify | EHash | ECompare | ECatalog.

Definition event_eqb (a b : event) : bool :=
  match a, b with
  | ERead, ERead | EWrite, EWrite | EVerify, EVerify | EHash, EHash
  | ECompare, ECompare | ECatalog, ECatalog => true
  | _, _ => false
  end.

(** The state a request sees: the stored users (in insertion order),
    whether the database connection is up, and the effect log. *)
Record world := mkWorld {
  users : list user;
  store_up : bool;
  log : list event
}.

Inductive outcome (A : Type) := Ret (a : A) | Throw (err : string).
Arguments Ret {A} a.
Arguments Throw {A} err.

(** An async handler body: a state and exception monad; [Throw] is a
    rejected promise. *)
Definition M (A : Type) := world -> outcome A * world.

Definition ret {A} (a : A) : M A := fun w => (Ret a, w).

Definition throw {A} (e : string) : M A := fun w => (Throw e, w).

Definition bind {A B} (m : M A) (k : A -> M B) : M B :=
  fun w =>
    match m w with
    | (Ret a, w') => k a w'
    | (Throw e, w') => (Throw e, w')
    end.

Notation "x <- m ;; k" := (bind m (fun x => k))
  (at level 61, m at next level, right associativity).

(** [try { m } catch (error) { h(error) }]. *)
Definition try_catch {A} (m : M A) (h : string -> M A) : M A :=
  fun w =>
    match m w with
    | (Throw e, w') => h e w'
    | r => r
    end.

Definition emit (e : event) : M unit :=
  fun w => (Ret tt, mkWorld (users w) (store_up w) (log w ++ [e])).

(** [Promise.all] over a list of promises, results in list order. *)
Fixpoint promise_all {A} (ms : list (M A)) : M (list A) :=
  match ms with
  | [] => ret []
  | m :: rest => a <- m ;; r <- promise_all rest ;; ret (a :: r)
  end.

(** A store operation needs the connection. *)
Definition store_op {A} (f : list user -> outcome A) : M A :=
  fun w => if store_up w then (f (users w), w)
           else (Throw "MongoNetworkError: connection closed", w).

(** ** Queries *)

Definition find_user_by_id (id : string) (us : list user) : option user :=
  find (fun u => String.eqb (_id u) id) us.

(** [User.findById(id)]: [undefined] and [null] find nothing, other
    values must cast to an [ObjectId]. *)
Definition user_for_id (id : json) (us : list user) : outcome (option user) :=
  match id with
  | JUndef | JNull => Ret None
  | JStr s =>
      if is_object_id s then Ret (find_user_by_id s us)
      else Throw "CastError: Cast to ObjectId failed"
  | _ => Throw "CastError: Cast to ObjectId failed"
  end.

Definition findById (id : json) : M (option user) :=
  _ <- emit ERead ;;
  store_op (user_for_id id).

(** [User.findOne({ $or: [{ email }, { username }] })]. *)
Definition findOne_email_or_username (e n : json) : M (option user) :=
  _ <- emit ERead ;;
  store_op (fun us =>
    match cast_string e, cast_string n with
    | Some e', Some n' =>
        Ret (find (fun u => String.eqb (email u) e' || String.eqb (username u) n') us)
    | _, _ => Throw "CastError: Cast to string failed"
    end).

(** [User.findOne({ email })]. *)
Definition findOne_email (e : json) : M (option user) :=
  _ <- emit ERead ;;
  store_op (fun us =>
    match cast_string e with
    | Some e' => Ret (find (fun u => String.eqb (email u) e') us)
    | None => Throw "CastError: Cast to string failed"
    end).

(** ** Documents and [save] *)

(** A mongoose document: the current field values, the paths modified
    since it was loaded or last saved, and whether it was ever saved. *)
Record doc := mkDoc {
  cur : user;
  modified : list string;
  is_new : bool
}.

(** [doc.isModified(path)]. *)
Definition isModified (path : string) (d : doc) : bool :=
  existsb (String.eqb path) (modified d).

(** A document as returned by a query. *)
Definition hydrate (u : user) : doc := mkDoc u [] false.

(** [new User({ username, email, password })]: the constructor marks the
    paths it sets as modified. *)
Definition new_user_doc (id n e p : string) : doc :=
  mkDoc (mkUser id n e (Some p) [] []) ["username"; "email"; "password"] true.

Definition mark (path : string) (d : doc) : list string :=
  if isModified path d then modified d else modified d ++ [path].

(** [doc.password = v]: the path is marked only when the value changes. *)
Definition set_password (v : string) (d : doc) : doc :=
  let u := cur d in
  let same := match password u with Some p => String.eqb p v | None => false end in
  if same then d
  else mkDoc (mkUser (_id u) (username u) (email u) (Some v) (favorites u) (watchlists u))
             (mark "password" d) (is_new d).

(** [doc.favorites.push(f)]. *)
Definition push_favorite (f : favorite) (d : doc) : doc :=
  let u := cur d in
  mkDoc (mkUser (_id u) (username u) (email u) (password u) (favorites u ++ [f]) (watchlists u))
        (mark "favorites" d) (is_new d).

(** The [required] validators of [userSchema] (an empty string fails
    [required] on a [String] path). *)
Definition validate (d : doc) : M unit :=
  let u := cur d in
  let present p := match p with Some s => negb (String.eqb s "") | None => false end in
  if present (Some (username u)) && present (Some (email u)) && present (password u)
  then ret tt else throw "ValidationError: Path is required.".

(** The update [save] sends for an existing document: [$set] of the
    modified paths over the stored record. *)
Definition apply_paths (paths : list string) (src dst : user) : user :=
  let has p := existsb (String.eqb p) paths in
  mkUser (_id dst)
    (if has "username" then username src else username dst)
    (if has "email" then email src else email dst)
    (if has "password" then password src else password dst)
    (if has "favorites" then favorites src else favorites dst)
    (if has "watchlists" then watchlists src else watchlists dst).

Definition replace_user (u : user) (us : list user) : list user :=
  map (fun x => if String.eqb (_id x) (_id u) then u else x) us.

(** Another record with the same [username] or [email] (unique indexes). *)
Definition unique_clash (u : user) (us : list user) : bool :=
  existsb (fun x => negb (String.eqb (_id x) (_id u))
                    && (String.eqb (username x) (username u) || String.eqb (email x) (email u))) us.

(** Write a document: insert a new one, [$set] the modified paths of an
    existing one; nothing is sent when nothing was modified. *)
Definition persist (d : doc) : M doc :=
  let u := cur d in
  if negb (is_new d) && match modified d with [] => true | _ => false end
  then ret d else
  _ <- emit EWrite ;;
  fun w =>
    if negb (store_up w) then (Throw "MongoNetworkError: connection closed", w) else
    if is_new d then
      if unique_clash u (users w) || existsb (fun x => String.eqb (_id x) (_id u)) (users w)
      then (Throw "MongoServerError: E11000 duplicate key error", w)
      else (Ret (mkDoc u [] false), mkWorld (users w ++ [u]) (store_up w) (log w))
    else
      match find_user_by_id (_id u) (users w) with
      | None => (Throw "DocumentNotFoundError: No document found", w)
      | Some s =>
          let s' := apply_paths (modified d) u s in
          if unique_clash s' (users w)
          then (Throw "MongoServerError: E11000 duplicate key error", w)
          else (Ret (mkDoc u [] false), mkWorld (replace_user s' (users w)) (store_up w) (log w))
      end.

Section Server.

(** The bcrypt digest of a password under a salt ([bcryptjs], cost 12). *)
Variable bcrypt_digest : string -> string -> string.

(** [bcrypt.hash(p, 12)] with the salt it draws. *)
Definition bcrypt_hash (salt p : string) : string :=
  "$2a$12$" ++ salt ++ bcrypt_digest salt p.

(** [bcrypt.compare(c, h)]: hash [c] with the salt stored in [h]. *)
Definition bcrypt_compare (c h : string) : bool :=
  String.eqb (bcrypt_hash (substring 7 22 h) c) h.

(** [userSchema.pre('save')]:
    [if (!this.isModified('password')) return next();
     this.password = await bcrypt.hash(this.password, 12);] *)
Definition pre_save (salt : string) (d : doc) : M doc :=
  if negb (isModified "password" d) then ret d
  else
    let u := cur d in
    match password u with
    | Some p =>
        _ <- emit EHash ;;
        ret (mkDoc (mkUser (_id u) (username u) (email u) (Some (bcrypt_hash salt p))
                           (favorites u) (watchlists u))
                   (modified d) (is_new d))
    | None => throw "Error: Illegal arguments: undefined, number"
    end.

(** [doc.save()]: validation, the pre-save hook, then the write. *)
Definition save (salt : string) (d : doc) : M doc :=
  _ <- validate d ;;
  d' <- pre_save salt d ;;
  persist d'.

(** [user.comparePassword(candidate)]. *)
Definition comparePassword (candidate : json) (u : user) : M bool :=
  _ <- emit ECompare ;;
  match candidate, password u with
  | JStr c, Some h => ret (bcrypt_compare c h)
  | _, _ => throw "Error: Illegal arguments"
  end.

(** ** HTTP responses *)

(** [res.status(s).json(body)]. *)
Record response := mkResponse {
  status : Z;
  body : json
}.

Definition fail_body (msg : string) : json :=
  JObj [("success", JBool false); ("message", JStr msg)].

(** ** External collaborators *)

(** [jwt.verify(token, process.env.JWT_SECRET)] ([jsonwebtoken]): the
    decoded payload, or [None] where it throws (bad signature, malformed
    token, expired token). *)
Variable jwt_verify : string -> option json.

(** [jwt.sign(payload, process.env.JWT_SECRET, { expiresIn: '7d' })]. *)
Variable jwt_sign : json -> string.

(** [tmdbAPI.get(`/movie/${id}`)]: [response.data], or [None] where the
    request rejects (network failure, 404, ...). *)
Variable tmdb_movie : Z -> option json.

(** ** [authenticateToken] *)

Inductive gate_result :=
| GNext (u : user)          (* [req.user = user; next()] *)
| GRespond (r : response).  (* the middleware answered *)

(** [req.headers.authorization?.split(' ')[1]]. *)
Definition bearer_token (authorization : option string) : option string :=
  match authorization with
  | None => None
  | Some h => nth_error (js_split_space h) 1
  end.

Definition access_token_required : gate_result :=
  GRespond (mkResponse 401 (fail_body "Access token required")).

Definition invalid_token : gate_result :=
  GRespond (mkResponse 401 (fail_body "Invalid token")).

Definition verify_and_load (token : string) : M gate_result :=
  try_catch
    (_ <- emit EVerify ;;
     match jwt_verify token with
     | None => throw "JsonWebTokenError: invalid token"
     | Some decoded =>
         found <- findById (prop decoded "userId") ;;
         match found with
         | None => ret invalid_token
         | Some u => ret (GNext (without_password u))
         end
     end)
    (fun _ => ret invalid_token).

Definition authenticateToken (authorization : option string) : M gate_result :=
  match bearer_token authorization with
  | None => ret access_token_required
  | Some token =>
      if negb (truthy (JStr token)) then ret access_token_required
      else verify_and_load token
  end.

(** ** [GET /api/users/favorites] *)

Definition movie_summary (data : json) (addedAt : Z) : json :=
  JObj [("id", prop data "id"); ("title", prop data "title");
        ("overview", prop data "overview"); ("poster_path", prop data "poster_path");
        ("release_date", prop data "release_date");
        ("vote_average", prop data "vote_average"); ("addedAt", JNum addedAt)].

(** The per-favorite [async (fav) => { try { ... } catch { return null } }]. *)
Definition fetch_favorite (fav : favorite) : M json :=
  try_catch
    (_ <- emit ECatalog ;;
     match tmdb_movie (fav_movieId fav) with
     | Some JUndef => throw "TypeError: Cannot read properties of undefined (reading 'id')"
     | Some JNull => throw "TypeError: Cannot read properties of null (reading 'id')"
     | Some data => ret (movie_summary data (fav_addedAt fav))
     | None => throw "AxiosError: Request failed with status code 404"
     end)
    (fun _ => ret JNull).

(** [User.findById(req.user._id).populate('favorites')]; the populate has
    no effect, favorites hold no references.  The lookups are started
    together and awaited with [Promise.all]; each one only reads the
    catalog, so running them in list order gives the same results. *)
Definition get_favorites (req_user : user) : M response :=
  try_catch
    (found <- findById (JStr (_id req_user)) ;;
     match found with
     | None => throw "TypeError: Cannot read properties of null (reading 'favorites')"
     | Some u =>
         favoriteMovies <- promise_all (map fetch_favorite (favorites u)) ;;
         ret (mkResponse 200 (JObj [("success", JBool true);
                                    ("favorites", JArr (filter truthy favoriteMovies))]))
     end)
    (fun _ => ret (mkResponse 500 (fail_body "Error fetching favorites"))).

(** ** [POST /api/users/favorites] *)

(** [now] is [Date.now()], the default of [addedAt]. *)
Definition add_favorite (now : Z) (salt : string) (req_user : user) (reqbody : json)
  : M response :=
  try_catch
    (let movieId := prop reqbody "movieId" in
     if negb (truthy movieId) then ret (mkResponse 400 (fail_body "Movie ID is required"))
     else
       (found <- findById (JStr (_id req_user)) ;;
        match found with
        | None => throw "TypeError: Cannot read properties of null (reading 'favorites')"
        | Some u =>
            if existsb (fun fav => strict_eq (JNum (fav_movieId fav)) movieId) (favorites u)
            then ret (mkResponse 400 (fail_body "Movie already in favorites"))
            else
              match cast_number movieId with
              | None => throw "ValidationError: Cast to Number failed"
              | Some m =>
                  (_ <- save salt (push_favorite (mkFavorite m now) (hydrate u)) ;;
                   ret (mkResponse 200 (JObj [("success", JBool true);
                                              ("message", JStr "Movie added to favorites")])))
              end
        end))
    (fun _ => ret (mkResponse 500 (fail_body "Error adding to favorites"))).

(** ** [POST /api/auth/register] and [POST /api/auth/login] *)

Definition user_projection (u : user) : json :=
  JObj [("id", JStr (_id u)); ("username", JStr (username u)); ("email", JStr (email u))].

Definition token_payload (u : user) : json :=
  JObj [("userId", JStr (_id u)); ("email", JStr (email u))].

(** [fresh_id] is the [ObjectId] mongoose draws for the new document,
    [salt] the salt bcrypt draws. *)
Definition register (fresh_id salt : string) (reqbody : json) : M response :=
  try_catch
    (let n := prop reqbody "username" in
     let e := prop reqbody "email" in
     let p := prop reqbody "password" in
     if negb (truthy n) || negb (truthy e) || negb (truthy p)
     then ret (mkResponse 400 (fail_body "All fields are required"))
     else
       (existing <- findOne_email_or_username e n ;;
        match existing with
        | Some _ => ret (mkResponse 400 (fail_body "User already exists with this email or username"))
        | None =>
            match cast_string n, cast_string e, cast_string p with
            | Some n', Some e', Some p' =>
                (user <- save salt (new_user_doc fresh_id n' e' p') ;;
                 ret (mkResponse 201
                        (JObj [("success", JBool true);
                               ("message", JStr "User registered successfully");
                               ("user", user_projection (cur user));
                               ("token", JStr (jwt_sign (token_payload (cur user))))])))
            | _, _, _ => throw "ValidationError: Cast to string failed"
            end
        end))
    (fun err => ret (mkResponse 500 (JObj [("success", JBool false);
                                           ("message", JStr "Registration failed");
                                           ("error", JStr err)]))).

Definition login (reqbody : json) : M response :=
  try_catch
    (let e := prop reqbody "email" in
     let p := prop reqbody "password" in
     if negb (truthy e) || negb (truthy p)
     then ret (mkResponse 400 (fail_body "Email and password are required"))
     else
       (found <- findOne_email e ;;
        match found with
        | None => ret (mkResponse 401 (fail_body "Invalid email or password"))
        | Some u =>
            (ok <- comparePassword p u ;;
             if ok
             then ret (mkResponse 200
                         (JObj [("success", JBool true);
                                ("message", JStr "Login successful");
                                ("user", user_projection u);
                                ("token", JStr (jwt_sign (token_payload u)))]))
             else ret (mkResponse 401 (fail_body "Invalid email or password")))
        end))
    (fun err => ret (mkResponse 500 (JObj [("success", JBool false);
                                           ("message", JStr "Login failed");
                                           ("error", JStr err)]))).

(** ** The catalog routes *)

(** An awaited [tmdbAPI.get]: [response.data], or the rejection with
    [error.response?.data] ([JUndef] when no response came back) and
    [error.message]. *)
Inductive tmdb_reply :=
| TData (data : json)
| TError (response_data : json) (message : string).

(** [tmdbAPI.get(path, { params })]; the axios instance adds [api_key]
    and [language] to [params]. *)
Variable tmdb_get : string -> list (string * json) -> tmdb_reply.

(** What a catalog route's [catch] receives: a rejected request, or a
    [TypeError] raised while reading the reply. *)
Inductive route_error :=
| RequestFailed (response_data : json) (message : string)
| TypeError (message : string).

(** Synchronous steps that may throw, in order. *)
Definition jbind {A B} (m : route_error + A) (k : A -> route_error + B) : route_error + B :=
  match m with
  | inl e => inl e
  | inr a => k a
  end.

Definition await_get (path : string) (params : list (string * json)) : route_error + json :=
  match tmdb_get path params with
  | TData data => inr data
  | TError data msg => inl (RequestFailed data msg)
  end.

Definition cannot_read (v : json) (k : string) : string :=
  "Cannot read properties of " ++ (match v with JNull => "null" | _ => "undefined" end)
  ++ " (reading '" ++ k ++ "')".

(** [v.k], which throws on [undefined] and [null]. *)
Definition read (v : json) (k : string) : route_error + json :=
  match v with
  | JUndef | JNull => inl (TypeError (cannot_read v k))
  | _ => inr (prop v k)
  end.

(** Reads of several properties, in order. *)
Fixpoint read_all (v : json) (ks : list string) : route_error + list json :=
  match ks with
  | [] => inr []
  | k :: rest => jbind (read v k) (fun x => jbind (read_all v rest) (fun xs => inr (x :: xs)))
  end.

(** [movie => ({ k1: movie.k1, ..., kn: movie.kn })]. *)
Definition pick (ks : list string) (movie : json) : route_error + json :=
  jbind (read_all movie ks) (fun vs => inr (JObj (combine ks vs))).

Fixpoint map_all (f : json -> route_error + json) (xs : list json) : route_error + list json :=
  match xs with
  | [] => inr []
  | x :: rest => jbind (f x) (fun y => jbind (map_all f rest) (fun ys => inr (y :: ys)))
  end.

(** [what.map(f)]. *)
Definition js_map (f : json -> route_error + json) (v : json) (what : string)
  : route_error + list json :=
  match v with
  | JArr xs => map_all f xs
  | JUndef | JNull => inl (TypeError (cannot_read v "map"))
  | _ => inl (TypeError (what ++ ".map is not a function"))
  end.

(** [what.slice(0, n)] on an array or a string. *)
Definition js_slice (v : json) (n : nat) (what : string) : route_error + json :=
  match v with
  | JArr xs => inr (JArr (firstn n xs))
  | JStr s => inr (JStr (substring 0 n s))
  | JUndef | JNull => inl (TypeError (cannot_read v "slice"))
  | _ => inl (TypeError (what ++ ".slice is not a function"))
  end.

(** [v || []]. *)
Definition or_empty (v : json) : json := if truthy v then v else JArr [].

(** [base?.key.slice(0, n) || []]. *)
Definition optional_slice (base : json) (key : string) (n : nat) (what : string)
  : route_error + json :=
  match base with
  | JUndef | JNull => inr (JArr [])
  | _ => jbind (js_slice (prop base key) n what) (fun r => inr (or_empty r))
  end.

(** [base?.key || []]. *)
Definition optional_prop (base : json) (key : string) : json :=
  match base with
  | JUndef | JNull => JArr []
  | _ => or_empty (prop base key)
  end.

(** [const { page = 1 } = req.query]: the default replaces [undefined]. *)
Definition with_default (v d : json) : json :=
  match v with
  | JUndef => d
  | _ => v
  end.

(** [error.response?.data?.status_message || error.message]. *)
Definition error_detail (e : route_error) : json :=
  match e with
  | RequestFailed data msg =>
      let sm := prop data "status_message" in
      if truthy sm then sm else JStr msg
  | TypeError msg => JStr msg
  end.

Definition catalog_failure (message : string) (e : route_error) : response :=
  mkResponse 500 (JObj [("success", JBool false); ("message", JStr message);
                        ("error", error_detail e)]).

Definition handle (message : string) (r : route_error + response) : response :=
  match r with
  | inl e => catalog_failure message e
  | inr ok => ok
  end.

Definition popular_fields : list string :=
  ["id"; "title"; "overview"; "poster_path"; "backdrop_path"; "release_date";
   "vote_average"; "vote_count"; "genre_ids"].

Definition search_fields : list string :=
  ["id"; "title"; "overview"; "poster_path"; "release_date"; "vote_average"].

(** [GET /api/movies/popular]; [query] is [req.query]. *)
Definition popular_movies (query : json) : response :=
  let page := with_default (prop query "page") (JNum 1) in
  handle "Error fetching movies from TMDB"
    (jbind (await_get "/movie/popular" [("page", page)]) (fun data =>
     jbind (read data "results") (fun results =>
     jbind (js_map (pick popular_fields) results "response.data.results") (fun movies =>
     inr (mkResponse 200 (JObj [("success", JBool true); ("results", JArr movies);
                                ("total_pages", prop data "total_pages");
                                ("total_results", prop data "total_results");
                                ("page", prop data "page")])))))).

(** [GET /api/movies/search]. *)
Definition search_movies (query : json) : response :=
  let q := prop query "query" in
  let page := with_default (prop query "page") (JNum 1) in
  if negb (truthy q) then mkResponse 400 (fail_body "Search query is required")
  else
    handle "Error searching movies"
      (jbind (await_get "/search/movie" [("query", q); ("page", page)]) (fun data =>
       jbind (read data "results") (fun results =>
       jbind (js_map (pick search_fields) results "response.data.results") (fun movies =>
       inr (mkResponse 200 (JObj [("success", JBool true); ("results", JArr movies);
                                  ("total_pages", prop data "total_pages");
                                  ("total_results", prop data "total_results");
                                  ("page", prop data "page"); ("query", q)])))))).

(** [GET /api/movies/:id]; [id] is [req.params.id]. *)
Definition movie_details (id : string) : response :=
  handle "Error fetching movie details"
    (jbind (await_get ("/movie/" ++ id) [("append_to_response", JStr "credits,videos,similar")])
       (fun data =>
     jbind (read data "id") (fun _ =>
     jbind (optional_slice (prop data "credits") "cast" 10 "response.data.credits?.cast") (fun cast =>
     jbind (optional_slice (prop data "credits") "crew" 5 "response.data.credits?.crew") (fun crew =>
     let videos := optional_prop (prop data "videos") "results" in
     jbind (optional_slice (prop data "similar") "results" 6 "response.data.similar?.results")
       (fun similar =>
     inr (mkResponse 200
            (JObj [("success", JBool true);
                   ("data", JObj [("id", prop data "id"); ("title", prop data "title");
                                  ("overview", prop data "overview");
                                  ("poster_path", prop data "poster_path");
                                  ("backdrop_path", prop data "backdrop_path");
                                  ("release_date", prop data "release_date");
                                  ("runtime", prop data "runtime");
                                  ("vote_average", prop data "vote_average");
                                  ("vote_count", prop data "vote_count");
                                  ("genres", prop data "genres");
                                  ("production_companies", prop data "production_companies");
                                  ("cast", cast); ("crew", crew); ("videos", videos);
                                  ("similar", similar)])])))))))).

(** [GET /api/movies/genres/list]: the [catch] sends no error detail. *)
Definition movie_genres : response :=
  match jbind (await_get "/genre/movie/list" []) (fun data =>
        jbind (read data "genres") (fun genres =>
        inr (mkResponse 200 (JObj [("success", JBool true); ("genres", genres)])))) with
  | inl _ => mkResponse 500 (fail_body "Error fetching genres")
  | inr ok => ok
  end.

End Server.

(** ** Observations used by the specification *)

(** [w'] differs from [w] only by effects that are not store writes:
    same stored users, same connection state, log extended without
    [EWrite]. *)
Definition frame (w w' : world) : Prop :=
  users w' = users w /\ store_up w' = store_up w /\
  exists l, log w' = (log w ++ l)%list /\ ~ In EWrite l.

(** A handler that only reads, whatever the state it starts in. *)
Definition read_only {A} (m : M A) : Prop := forall w, frame w (snd (m w)).

(** Number of occurrences of an effect in a log. *)
Definition count_event (e : event) (l : list event) : nat :=
  length (filter (event_eqb e) l).

(** The password hash stored for a user identifier, if the record exists. *)
Definition stored_password (id : string) (w : world) : option (option string) :=
  option_map password (find_user_by_id id (users w)).

(** The favorites aggregator as the spec describes it: the summaries of
    the entries whose lookup succeeds, each with its own [addedAt], in
    favorites order. *)
Definition favorites_spec (lookup : Z -> option json) (favs : list favorite) : list json :=
  flat_map (fun fav =>
              match lookup (fav_movieId fav) with
              | Some data => [movie_summary data (fav_addedAt fav)]
              | None => []
              end) favs.

(** A lookup resolves to a movie when the catalog answers with a body a
    summary can be read from: a rejected request, and an answer whose
    [response.data] is [null] or [undefined] (reading its [id] throws),
    both fail. *)
Definition resolved (lookup : Z -> option json) (m : Z) : option json :=
  match lookup m with
  | Some JUndef | Some JNull => None
  | r => r
  end.

(** The value one favorites lookup settles to: the summary, or [null]. *)
Definition settled (lookup : Z -> option json) (fav : favorite) : json :=
  match resolved lookup (fav_movieId fav) with
  | Some data => movie_summary data (fav_addedAt fav)
  | None => JNull
  end.


(** Whether a string contains a space. *)
Fixpoint has_space (s : string) : bool :=
  match s with
  | EmptyString => false
  | String c rest => Ascii.eqb c " "%char || has_space rest
  end.

(** The object of the listed properties of a catalog entry. *)
Definition projection (ks : list string) (entry : json) : json :=
  JObj (map (fun k => (k, prop entry k)) ks).

(** ** Sample collaborators and data for the concrete runs *)

(** A stand-in bcrypt digest. *)
Definition sample_digest (salt p : string) : string := p.

Definition sample_salt : string := "abcdefghijklmnopqrstuv".

Definition ana_id : string := "64b7f0c2a1e4d3b2c1a09f01".

(** A verifier accepting the one token ["good"], carrying [ana_id]. *)
Definition sample_verify (t : string) : option json :=
  if String.eqb t "good" then Some (JObj [("userId", JStr ana_id); ("email", JStr "a@x.com")])
  else None.

Definition sample_sign (payload : json) : string := "signed".

(** A catalog in which movie 202 is missing upstream. *)
Definition sample_catalog (m : Z) : option json :=
  if Z.eqb m 202 then None
  else Some (JObj [("id", JNum m); ("title", JStr "Movie"); ("overview", JStr "");
                   ("poster_path", JStr "/p.jpg"); ("release_date", JStr "2020-01-01");
                   ("vote_average", JNum 7)]).

Definition ana : user :=
  mkUser ana_id "ana" "a@x.com"
    (Some (bcrypt_hash sample_digest sample_salt "secret1"))
    [mkFavorite 101 1000; mkFavorite 202 2000; mkFavorite 303 3000] [].

Definition sample_world : world := mkWorld [ana] true [].

(** A second account, for the registration runs. *)
Definition bo_id : string := "64b7f0c2a1e4d3b2c1a09f02".

(** A verifier accepting the one token ["signed"], carrying [bo_id]. *)
Definition bo_verify (t : string) : option json :=
  if String.eqb t "signed" then Some (JObj [("userId", JStr bo_id); ("email", JStr "b@x.com")])
  else None.

(** A catalog entry as the list endpoints return it. *)
Definition sample_entry (n : nat) : json :=
  JObj [("id", JNum (Z.of_nat n)); ("title", JStr "Movie"); ("overview", JStr "");
        ("poster_path", JStr "/p.jpg"); ("backdrop_path", JNull);
        ("release_date", JStr "2020-01-01"); ("vote_average", JNum 7); ("vote_count", JNum 10);
        ("genre_ids", JArr [JNum 18]); ("popularity", JNum 99)].

Definition sample_listing (rs : list json) : json :=
  JObj [("page", JNum 1); ("results", JArr rs); ("total_pages", JNum 1);
        ("total_results", JNum (Z.of_nat (length rs)))].

(** Movie 550 with 12 cast members, 7 crew members, 2 videos and 8
    similar movies. *)
Definition sample_details_fields : list (string * json) :=
  [("id", JNum 550); ("title", JStr "Fight Club"); ("runtime", JNum 139);
   ("credits", JObj [("cast", JArr (map sample_entry (seq 1 12)));
                     ("crew", JArr (map sample_entry (seq 20 7)))]);
   ("videos", JObj [("results", JArr [JStr "trailer"; JStr "teaser"])]);
   ("similar", JObj [("page", JNum 1); ("results", JArr (map sample_entry (seq 40 8)))])].

(** Movie 551 has neither credits nor videos nor similar movies. *)
Definition sample_tmdb (path : string) (params : list (string * json)) : tmdb_reply :=
  if String.eqb path "/movie/popular" then TData (sample_listing (map sample_entry [1; 2]%nat))
  else if String.eqb path "/search/movie" then TData (sample_listing (map sample_entry [3]%nat))
  else if String.eqb path "/movie/550" then TData (JObj sample_details_fields)
  else if String.eqb path "/movie/551" then TData (JObj [("id", JNum 551); ("title", JStr "Short")])
  else TError (JObj [("success", JBool false);
                     ("status_message", JStr "The resource you requested could not be found.")])
              "Request failed with status code 404".

(** A popular listing with a [null] entry. *)
Definition holey_tmdb (path : string) (params : list (string * json)) : tmdb_reply :=
  TData (sample_listing [sample_entry 1; JNull]).

(** A catalog rejecting every request for a bad key. *)
Definition locked_tmdb (path : string) (params : list (string * json)) : tmdb_reply :=
  TError (JObj [("status_code", JNum 7); ("status_message", JStr "Invalid API key")])
         "Request failed with status code 401".

(** * Properties *)

Section Proofs.

Open Scope list_scope.

Variable bcrypt_digest : string -> string -> string.
Variable jwt_verify : string -> option json.
Variable jwt_sign : json -> string.
Variable tmdb_movie : Z -> option json.
Variable tmdb_get : string -> list (string * json) -> tmdb_reply.

(** ** Read-only computations *)

Lemma frame_refl (w : world) : frame w w.
Proof.
  unfold frame. split; [reflexivity|]. split; [reflexivity|].
  exists []. split; [now rewrite app_nil_r | intros []].
Qed.

Lemma frame_trans (w1 w2 w3 : world) : frame w1 w2 -> frame w2 w3 -> frame w1 w3.
Proof.
  intros (U1 & S1 & l1 & L1 & N1) (U2 & S2 & l2 & L2 & N2).
  split; [congruence|]. split; [congruence|].
  exists (l1 ++ l2)%list. split.
  - rewrite L2, L1, app_assoc. reflexivity.
  - intros H. apply in_app_or in H. tauto.
Qed.

Lemma ro_ret {A} (a : A) : read_only (ret a).
Proof. intros w. apply frame_refl. Qed.

Lemma ro_throw {A} (e : string) : read_only (@throw A e).
Proof. intros w. apply frame_refl. Qed.

Lemma ro_bind {A B} (m : M A) (k : A -> M B) :
  read_only m -> (forall a, read_only (k a)) -> read_only (bind m k).
Proof.
  intros Hm Hk w. unfold bind. specialize (Hm w).
  destruct (m w) as [[a|e] w']; simpl in *.
  - eapply frame_trans; [exact Hm | apply Hk].
  - exact Hm.
Qed.

Lemma ro_try {A} (m : M A) (h : string -> M A) :
  read_only m -> (forall e, read_only (h e)) -> read_only (try_catch m h).
Proof.
  intros Hm Hh w. unfold try_catch. specialize (Hm w).
  destruct (m w) as [[a|e] w']; simpl in *.
  - exact Hm.
  - eapply frame_trans; [exact Hm | apply Hh].
Qed.

Lemma ro_emit (e : event) : e <> EWrite -> read_only (emit e).
Proof.
  intros He w. unfold frame; simpl. split; [reflexivity|]. split; [reflexivity|].
  exists [e]. split; [reflexivity|]. intros [H|[]]. congruence.
Qed.

Lemma ro_store_op {A} (f : list user -> outcome A) : read_only (store_op f).
Proof. intros w. unfold store_op. destruct (store_up w); apply frame_refl. Qed.

Lemma ro_findById (id : json) : read_only (findById id).
Proof.
  apply ro_bind; [apply ro_emit; discriminate|]. intros _. apply ro_store_op.
Qed.

Create HintDb readonly.
#[local] Hint Resolve ro_ret ro_throw ro_store_op ro_findById : readonly.

Lemma ro_verify_and_load (token : string) : read_only (verify_and_load jwt_verify token).
Proof.
  unfold verify_and_load. apply ro_try; [|auto with readonly].
  apply ro_bind; [apply ro_emit; discriminate|]. intros _.
  destruct (jwt_verify token); [|auto with readonly].
  apply ro_bind; [auto with readonly|]. intros [u|]; auto with readonly.
Qed.

(** ** The token gate *)

Lemma verify_and_load_eq (token : string) (w : world) :
  fst (verify_and_load jwt_verify token w) =
  match jwt_verify token with
  | None => Ret invalid_token
  | Some decoded =>
      if store_up w then
        match user_for_id (prop decoded "userId") (users w) with
        | Ret (Some u) => Ret (GNext (without_password u))
        | _ => Ret invalid_token
        end
      else Ret invalid_token
  end.
Proof.
  unfold verify_and_load, try_catch, bind, emit, findById, store_op, throw, ret; simpl.
  destruct (jwt_verify token) as [d|]; simpl; [|reflexivity].
  destruct (store_up w); simpl; [|reflexivity].
  destruct (user_for_id _ _) as [[u|]|e]; reflexivity.
Qed.

Lemma truthy_str (t : string) : truthy (JStr t) = false <-> t = "".
Proof.
  simpl. destruct (String.eqb t "") eqn:E; simpl.
  - apply String.eqb_eq in E. split; auto.
  - apply String.eqb_neq in E. split; [discriminate | intros H; contradiction].
Qed.

(** C2 (as amended).  The gate answers 401 "Access token required",
    without consulting the token verifier or the store and without any
    other effect, exactly when the header is absent or its second
    space-separated field ([authorization.split(' ')[1]]) is missing or
    empty; the scheme word in front of it is not checked. *)
Theorem authenticateToken_access_token_required : forall authorization w,
  authenticateToken jwt_verify authorization w = (Ret access_token_required, w) <->
  bearer_token authorization = None \/ bearer_token authorization = Some "".
Proof.
  intros authorization w. unfold authenticateToken.
  destruct (bearer_token authorization) as [t|] eqn:B.
  - destruct (truthy (JStr t)) eqn:T; simpl.
    + split.
      * intros H. apply (f_equal fst) in H. simpl in H.
        rewrite verify_and_load_eq in H.
        destruct (jwt_verify t); [|inversion H].
        destruct (store_up w); [|inversion H].
        destruct (user_for_id _ _) as [[u|]|e]; inversion H.
      * intros [H|H]; [discriminate|]. inversion H; subst. discriminate.
    + apply truthy_str in T. subst. split; auto.
  - split; auto.
Qed.

(** C3 (as amended).  For a non-empty bearer token the gate answers 401
    "Invalid token" when the token fails verification, when the [userId]
    claim names no stored user, and also when the store lookup itself
    throws (connection down, or a claim that does not cast to an
    [ObjectId]); otherwise it passes on the stored user with the password
    field removed. *)
Theorem authenticateToken_invalid_token_cases : forall authorization token w,
  bearer_token authorization = Some token -> token <> "" ->
  fst (authenticateToken jwt_verify authorization w) =
  match jwt_verify token with
  | None => Ret invalid_token
  | Some decoded =>
      if store_up w then
        match user_for_id (prop decoded "userId") (users w) with
        | Ret (Some u) => Ret (GNext (without_password u))
        | Ret None => Ret invalid_token
        | Throw _ => Ret invalid_token
        end
      else Ret invalid_token
  end.
Proof.
  intros authorization token w B NE. unfold authenticateToken. rewrite B.
  destruct (truthy (JStr token)) eqn:T.
  - simpl. rewrite verify_and_load_eq.
    destruct (jwt_verify token); [|reflexivity].
    destruct (store_up w); [|reflexivity].
    destruct (user_for_id _ _) as [[u|]|e]; reflexivity.
  - apply truthy_str in T. contradiction.
Qed.

(** C9.  Whatever the request, the gate leaves the stored users and the
    connection as they were; its only effects are reads (token
    verification and the [findById] lookup), never a store write. *)
Theorem authenticateToken_no_mutation : forall authorization w,
  frame w (snd (authenticateToken jwt_verify authorization w)).
Proof.
  intros authorization. unfold authenticateToken.
  destruct (bearer_token authorization) as [t|];
    [destruct (negb (truthy (JStr t)))|];
    first [apply ro_ret | apply ro_verify_and_load].
Qed.

(** ** Running handlers step by step *)

Lemma bind_ret {A B} (m : M A) (k : A -> M B) (w w' : world) (a : A) :
  m w = (Ret a, w') -> bind m k w = k a w'.
Proof. intros H. unfold bind. rewrite H. reflexivity. Qed.

Lemma bind_throw {A B} (m : M A) (k : A -> M B) (w w' : world) (e : string) :
  m w = (Throw e, w') -> bind m k w = (Throw e, w').
Proof. intros H. unfold bind. rewrite H. reflexivity. Qed.

Lemma findById_eq (id : json) (w : world) :
  findById id w =
  (if store_up w then user_for_id id (users w)
   else Throw "MongoNetworkError: connection closed",
   mkWorld (users w) (store_up w) (log w ++ [ERead])).
Proof. unfold findById, bind, emit, store_op; simpl. destruct (store_up w); reflexivity. Qed.

Lemma findById_found (id : string) (w : world) (u : user) :
  store_up w = true -> is_object_id id = true -> find_user_by_id id (users w) = Some u ->
  findById (JStr id) w = (Ret (Some u), mkWorld (users w) (store_up w) (log w ++ [ERead])).
Proof.
  intros Hup Hid Hf. rewrite findById_eq, Hup. simpl. rewrite Hid, Hf. reflexivity.
Qed.

(** ** The favorites aggregator *)

Lemma fetch_favorite_eq (fav : favorite) (w : world) :
  fetch_favorite tmdb_movie fav w =
  (Ret (settled tmdb_movie fav), mkWorld (users w) (store_up w) (log w ++ [ECatalog])).
Proof.
  unfold fetch_favorite, settled, resolved, try_catch, bind, emit, throw, ret; simpl.
  destruct (tmdb_movie (fav_movieId fav)) as [[]|]; reflexivity.
Qed.

Lemma promise_all_fetch (favs : list favorite) (w : world) :
  fst (promise_all (map (fetch_favorite tmdb_movie) favs) w) = Ret (map (settled tmdb_movie) favs).
Proof.
  revert w. induction favs as [|fav rest IH]; intros w; [reflexivity|].
  cbn [map promise_all]. erewrite bind_ret; [|apply fetch_favorite_eq].
  unfold bind. specialize (IH (mkWorld (users w) (store_up w) (log w ++ [ECatalog]))).
  destruct (promise_all _ _) as [o w2]. simpl in IH. subst o. reflexivity.
Qed.

Lemma filter_settled (favs : list favorite) :
  filter truthy (map (settled tmdb_movie) favs) = favorites_spec (resolved tmdb_movie) favs.
Proof.
  induction favs as [|fav rest IH]; [reflexivity|].
  cbn [map filter flat_map].
  destruct (resolved tmdb_movie (fav_movieId fav)) as [data|] eqn:E.
  - assert (Hs : settled tmdb_movie fav = movie_summary data (fav_addedAt fav))
      by (unfold settled; rewrite E; reflexivity).
    rewrite Hs, IH. unfold favorites_spec; simpl; rewrite E; reflexivity.
  - assert (Hs : settled tmdb_movie fav = JNull) by (unfold settled; rewrite E; reflexivity).
    rewrite Hs, IH. unfold favorites_spec; simpl; rewrite E; reflexivity.
Qed.

Lemma resolved_eq (lookup : Z -> option json) :
  (forall m, lookup m <> Some JUndef /\ lookup m <> Some JNull) ->
  forall m, resolved lookup m = lookup m.
Proof.
  intros H m. unfold resolved. destruct (H m) as [H1 H2].
  destruct (lookup m) as [[]|]; try reflexivity; congruence.
Qed.

Lemma favorites_spec_resolved (lookup : Z -> option json) (favs : list favorite) :
  (forall m, lookup m <> Some JUndef /\ lookup m <> Some JNull) ->
  favorites_spec (resolved lookup) favs = favorites_spec lookup favs.
Proof.
  intros H. induction favs as [|fav rest IH]; [reflexivity|].
  unfold favorites_spec in *. cbn [flat_map]. rewrite IH, (resolved_eq lookup H). reflexivity.
Qed.

(** C1.  For a signed-in user whose record the store returns, the
    favorites endpoint succeeds (200, [success: true]) and lists exactly
    the entries whose catalog lookup resolved, each as its summary with
    the entry's own [addedAt], in favorites order; failed lookups (a
    rejected request, or an answer with a [null] or [undefined] body) are
    dropped without failing the request.  When the catalog never answers
    with such a body, these are exactly the entries whose request
    succeeded. *)
Theorem get_favorites_partial_failure : forall req_user u w,
  store_up w = true -> is_object_id (_id req_user) = true ->
  find_user_by_id (_id req_user) (users w) = Some u ->
  fst (get_favorites tmdb_movie req_user w) =
  Ret (mkResponse 200 (JObj [("success", JBool true);
                             ("favorites",
                              JArr (favorites_spec (resolved tmdb_movie) (favorites u)))]))
  /\ ((forall m, tmdb_movie m <> Some JUndef /\ tmdb_movie m <> Some JNull) ->
      fst (get_favorites tmdb_movie req_user w) =
      Ret (mkResponse 200 (JObj [("success", JBool true);
                                 ("favorites", JArr (favorites_spec tmdb_movie (favorites u)))]))).
Proof.
  intros req_user u w Hup Hid Hf.
  assert (G : fst (get_favorites tmdb_movie req_user w) =
              Ret (mkResponse 200 (JObj [("success", JBool true);
                                         ("favorites",
                                          JArr (favorites_spec (resolved tmdb_movie) (favorites u)))]))).
  { unfold get_favorites, try_catch.
    erewrite bind_ret; [|apply findById_found; eauto].
    unfold bind.
    pose proof (promise_all_fetch (favorites u)
                  (mkWorld (users w) (store_up w) (log w ++ [ERead]))) as P.
    destruct (promise_all _ _) as [o w2]. simpl in P. subst o. simpl.
    rewrite filter_settled. reflexivity. }
  split; [exact G|]. intros H. rewrite G, (favorites_spec_resolved tmdb_movie _ H). reflexivity.
Qed.

(** ** Adding a favorite *)

(** C10 (as amended).  A falsy [movieId] (absent, [null], [false], [0]
    or [""]) is answered 400 "Movie ID is required" before any store
    access, with the state untouched; the test is truthiness only. *)
Theorem add_favorite_requires_movieId : forall now salt req_user reqbody w,
  truthy (prop reqbody "movieId") = false ->
  add_favorite bcrypt_digest now salt req_user reqbody w =
  (Ret (mkResponse 400 (fail_body "Movie ID is required")), w).
Proof.
  intros now salt req_user reqbody w H. unfold add_favorite, try_catch. cbv zeta.
  rewrite H. reflexivity.
Qed.

(** A numeric [movieId] already in the list is refused. *)
Lemma add_favorite_number_conflict : forall now salt req_user u w m,
  store_up w = true -> is_object_id (_id req_user) = true ->
  find_user_by_id (_id req_user) (users w) = Some u ->
  In m (map fav_movieId (favorites u)) -> m <> 0 ->
  add_favorite bcrypt_digest now salt req_user (JObj [("movieId", JNum m)]) w =
  (Ret (mkResponse 400 (fail_body "Movie already in favorites")),
   mkWorld (users w) (store_up w) (log w ++ [ERead])).
Proof.
  intros now salt req_user u w m Hup Hid Hf Hin Hm. unfold add_favorite, try_catch.
  cbv zeta.
  assert (P : prop (JObj [("movieId", JNum m)]) "movieId" = JNum m) by reflexivity.
  rewrite !P.
  replace (truthy (JNum m)) with true
    by (simpl; destruct (Z.eqb_spec m 0); [contradiction | reflexivity]).
  change (negb true) with false. cbv beta iota. erewrite bind_ret; [|apply findById_found; eauto].
  assert (E : existsb (fun fav => strict_eq (JNum (fav_movieId fav)) (JNum m)) (favorites u) = true).
  { apply existsb_exists. apply in_map_iff in Hin. destruct Hin as [fav [<- Hfav]].
    exists fav. split; [exact Hfav|]. simpl. apply Z.eqb_refl. }
  cbv beta iota. rewrite E. reflexivity.
Qed.

(** ** The save pipeline *)

Lemma count_event_app (e : event) (l1 l2 : list event) :
  count_event e (l1 ++ l2) = (count_event e l1 + count_event e l2)%nat.
Proof. unfold count_event. rewrite filter_app, length_app. reflexivity. Qed.

Lemma find_user_by_id_some (id : string) (us : list user) (u : user) :
  find_user_by_id id us = Some u -> _id u = id.
Proof.
  unfold find_user_by_id. intros H. apply find_some in H.
  destruct H as [_ H]. apply String.eqb_eq in H. exact H.
Qed.

Lemma find_user_by_id_replace (id : string) (s' : user) (us : list user) :
  _id s' = id ->
  find_user_by_id id (replace_user s' us) = option_map (fun _ => s') (find_user_by_id id us).
Proof.
  intros Hs. unfold find_user_by_id, replace_user. rewrite Hs.
  induction us as [|x rest IH]; [reflexivity|]. simpl.
  destruct (String.eqb (_id x) id) eqn:E; simpl.
  - rewrite Hs, String.eqb_refl. reflexivity.
  - rewrite E. exact IH.
Qed.

Lemma find_user_by_id_append (id : string) (us : list user) (u : user) :
  existsb (fun x => String.eqb (_id x) id) us = false -> _id u = id ->
  find_user_by_id id (us ++ [u]) = Some u.
Proof.
  intros Hn Hu. unfold find_user_by_id. induction us as [|x rest IH]; simpl in *.
  - rewrite Hu, String.eqb_refl. reflexivity.
  - apply orb_false_iff in Hn as [H1 H2]. rewrite H1. apply IH. exact H2.
Qed.

Lemma validate_world (d : doc) (w w1 : world) (o : outcome unit) :
  validate d w = (o, w1) -> w1 = w.
Proof.
  unfold validate, ret, throw. destruct (_ && _ && _); intros H; inversion H; reflexivity.
Qed.

(** The three ways a write can succeed: nothing to send, an insert, or
    a [$set] of the modified paths. *)
Lemma persist_ret (d d' : doc) (w w' : world) :
  persist d w = (Ret d', w') ->
  (is_new d = false /\ modified d = [] /\ w' = w)
  \/ (is_new d = true
      /\ existsb (fun x => String.eqb (_id x) (_id (cur d))) (users w) = false
      /\ users w' = users w ++ [cur d] /\ log w' = log w ++ [EWrite])
  \/ (is_new d = false
      /\ exists s, find_user_by_id (_id (cur d)) (users w) = Some s
      /\ users w' = replace_user (apply_paths (modified d) (cur d) s) (users w)
      /\ log w' = log w ++ [EWrite]).
Proof.
  unfold persist. intros H.
  destruct (negb (is_new d) && match modified d with [] => true | _ => false end) eqn:C.
  - unfold ret in H. injection H as E1 E2. subst d' w'. left.
    apply andb_true_iff in C as [C1 C2]. apply negb_true_iff in C1.
    destruct (modified d); [|discriminate]. auto.
  - unfold bind, emit in H. simpl in H.
    destruct (store_up w); simpl in H; [|discriminate].
    destruct (is_new d) eqn:N.
    + destruct (unique_clash _ _ || existsb _ _) eqn:U; [discriminate|].
      inversion H; subst. right; left. apply orb_false_iff in U as [_ U]. auto.
    + destruct (find_user_by_id _ _) as [s|] eqn:F; [|discriminate].
      destruct (unique_clash _ _); [discriminate|].
      inversion H; subst. right; right. split; [reflexivity|]. exists s. auto.
Qed.

(** C8.  A successful [save] runs the hashing step exactly when the
    password path was modified: then the stored password is the salted
    bcrypt hash of the current value and one hash was computed; when the
    path was not modified, an existing record keeps its stored password
    unchanged and nothing was hashed. *)
Theorem save_hashes_iff_password_modified : forall salt d w d' w',
  save bcrypt_digest salt d w = (Ret d', w') ->
  (isModified "password" d = true ->
     exists p, password (cur d) = Some p /\
       stored_password (_id (cur d)) w' = Some (Some (bcrypt_hash bcrypt_digest salt p)) /\
       count_event EHash (log w') = S (count_event EHash (log w)))
  /\ (isModified "password" d = false -> is_new d = false ->
       stored_password (_id (cur d)) w' = stored_password (_id (cur d)) w /\
       count_event EHash (log w') = count_event EHash (log w)).
Proof.
  intros salt d w d' w' H. unfold save, bind in H.
  destruct (validate d w) as [[[]|e] w1] eqn:V; [|discriminate].
  apply validate_world in V. subst w1.
  unfold pre_save in H. split.
  - intros Hm. rewrite Hm in H. simpl in H.
    destruct (password (cur d)) as [p|] eqn:Hp; [|discriminate].
    exists p. split; [reflexivity|].
    unfold bind, emit, ret in H. simpl in H.
    apply persist_ret in H. simpl in H.
    destruct H as [(_ & Hmod & _) | [(Hn & Hex & Hu & Hl) | (Hn & s & Hf & Hu & Hl)]].
    + unfold isModified in Hm. rewrite Hmod in Hm. discriminate.
    + unfold stored_password. rewrite Hu, find_user_by_id_append by auto.
      rewrite Hl, !count_event_app. split; [reflexivity | unfold count_event; simpl; lia].
    + unfold stored_password. rewrite Hu.
      rewrite find_user_by_id_replace
        by (simpl; apply find_user_by_id_some in Hf; exact Hf).
      rewrite Hf. unfold isModified in Hm. cbn [option_map].
      unfold apply_paths; cbv zeta; cbn [password cur modified]. rewrite Hm.
      rewrite Hl, !count_event_app. split; [reflexivity | unfold count_event; simpl; lia].
  - intros Hm Hnew. rewrite Hm in H. simpl in H. unfold ret in H.
    apply persist_ret in H.
    destruct H as [(_ & _ & ->) | [(Hn & _) | (_ & s & Hf & Hu & Hl)]].
    + split; reflexivity.
    + congruence.
    + unfold stored_password. rewrite Hu.
      rewrite find_user_by_id_replace
        by (simpl; apply find_user_by_id_some in Hf; exact Hf).
      rewrite Hf. unfold isModified in Hm. cbn [option_map].
      unfold apply_paths; cbv zeta; cbn [password cur modified]. rewrite Hm.
      rewrite Hl, !count_event_app. split; [reflexivity | unfold count_event; simpl; lia].
Qed.

(** ** Registration and login *)

Lemma truthy_nonempty (t : string) : t <> "" -> truthy (JStr t) = true.
Proof.
  intros H. destruct (truthy (JStr t)) eqn:T; [reflexivity|].
  apply truthy_str in T. contradiction.
Qed.

Lemma eqb_nonempty (t : string) : t <> "" -> String.eqb t "" = false.
Proof. intros H. apply String.eqb_neq. exact H. Qed.

Lemma findOne_email_or_username_eq (e n : string) (w : world) :
  store_up w = true ->
  findOne_email_or_username (JStr e) (JStr n) w =
  (Ret (find (fun u => String.eqb (email u) e || String.eqb (username u) n) (users w)),
   mkWorld (users w) (store_up w) (log w ++ [ERead])).
Proof. intros Hup. unfold findOne_email_or_username, bind, emit, store_op; simpl. now rewrite Hup. Qed.

Lemma findOne_email_eq (e : string) (w : world) :
  store_up w = true ->
  findOne_email (JStr e) w =
  (Ret (find (fun u => String.eqb (email u) e) (users w)),
   mkWorld (users w) (store_up w) (log w ++ [ERead])).
Proof. intros Hup. unfold findOne_email, bind, emit, store_op; simpl. now rewrite Hup. Qed.

Lemma comparePassword_eq (c h : string) (u : user) (w : world) :
  password u = Some h ->
  comparePassword bcrypt_digest (JStr c) u w =
  (Ret (bcrypt_compare bcrypt_digest c h),
   mkWorld (users w) (store_up w) (log w ++ [ECompare])).
Proof. intros Hp. unfold comparePassword, bind, emit, ret; simpl. now rewrite Hp. Qed.

Lemma no_unique_clash (id n e : string) (h : option string) (us : list user) :
  find (fun u => String.eqb (email u) e || String.eqb (username u) n) us = None ->
  unique_clash (mkUser id n e h [] []) us = false.
Proof.
  intros H. apply not_true_is_false. intros C.
  apply existsb_exists in C as [x [Hin Hx]].
  pose proof (find_none _ _ H x Hin) as Hf. simpl in Hf, Hx.
  apply orb_false_iff in Hf as [H1 H2]. rewrite H1, H2 in Hx.
  rewrite andb_false_r in Hx. discriminate.
Qed.

(** Saving the document [new User({ username, email, password })]. *)
Lemma save_new_user (id n e p salt : string) (w : world) :
  store_up w = true -> n <> "" -> e <> "" -> p <> "" ->
  find (fun u => String.eqb (email u) e || String.eqb (username u) n) (users w) = None ->
  existsb (fun x => String.eqb (_id x) id) (users w) = false ->
  save bcrypt_digest salt (new_user_doc id n e p) w =
  (Ret (mkDoc (mkUser id n e (Some (bcrypt_hash bcrypt_digest salt p)) [] []) [] false),
   mkWorld (users w ++ [mkUser id n e (Some (bcrypt_hash bcrypt_digest salt p)) [] []])
           (store_up w) (log w ++ [EHash; EWrite])).
Proof.
  intros Hup Hn He Hp Hf Hid.
  unfold save, validate, pre_save, persist, bind, emit, ret, throw.
  change (isModified "password" (new_user_doc id n e p)) with true.
  cbn -[bcrypt_hash unique_clash existsb String.eqb].
  rewrite !eqb_nonempty by assumption.
  cbn -[bcrypt_hash unique_clash existsb String.eqb].
  rewrite Hup, no_unique_clash, Hid by exact Hf.
  cbn -[bcrypt_hash]. rewrite <- app_assoc. reflexivity.
Qed.

(** C4 (as amended).  With username, email and password all non-empty
    strings and the store reachable, registration is decided by one
    combined lookup: a stored user with the same email or the same
    username gives 400 "User already exists with this email or username"
    and nothing is written; otherwise the new user is inserted with the
    bcrypt hash of the password and empty favorites and watchlists, and
    the answer is 201 with [success: true], a token and the projection
    [{id, username, email}] (no password field). *)
Theorem register_conflict_or_create : forall fresh_id salt n e p w,
  store_up w = true -> n <> "" -> e <> "" -> p <> "" ->
  (forall x, find (fun u => String.eqb (email u) e || String.eqb (username u) n) (users w) = Some x ->
     register bcrypt_digest jwt_sign fresh_id salt
       (JObj [("username", JStr n); ("email", JStr e); ("password", JStr p)]) w =
     (Ret (mkResponse 400 (fail_body "User already exists with this email or username")),
      mkWorld (users w) (store_up w) (log w ++ [ERead])))
  /\ (find (fun u => String.eqb (email u) e || String.eqb (username u) n) (users w) = None ->
      existsb (fun x => String.eqb (_id x) fresh_id) (users w) = false ->
      register bcrypt_digest jwt_sign fresh_id salt
        (JObj [("username", JStr n); ("email", JStr e); ("password", JStr p)]) w =
      (Ret (mkResponse 201
              (JObj [("success", JBool true);
                     ("message", JStr "User registered successfully");
                     ("user", JObj [("id", JStr fresh_id); ("username", JStr n); ("email", JStr e)]);
                     ("token", JStr (jwt_sign (JObj [("userId", JStr fresh_id); ("email", JStr e)])))])),
       mkWorld (users w ++ [mkUser fresh_id n e (Some (bcrypt_hash bcrypt_digest salt p)) [] []])
               (store_up w) (log w ++ [ERead; EHash; EWrite]))).
Proof.
  intros fresh_id salt n e p w Hup Hn He Hp.
  unfold register, try_catch. cbv zeta.
  set (b := JObj [("username", JStr n); ("email", JStr e); ("password", JStr p)]).
  assert (P1 : prop b "username" = JStr n) by reflexivity.
  assert (P2 : prop b "email" = JStr e) by reflexivity.
  assert (P3 : prop b "password" = JStr p) by reflexivity.
  rewrite !P1, !P2, !P3, !truthy_nonempty by assumption. cbn [negb orb].
  erewrite bind_ret; [|apply findOne_email_or_username_eq; exact Hup].
  split.
  - intros x Hx. rewrite Hx. reflexivity.
  - intros Hnone Hid. rewrite Hnone. cbn [cast_string].
    erewrite bind_ret; [|apply save_new_user; cbn [users store_up]; eauto].
    cbn [cur]. unfold ret. cbn [users store_up log]. rewrite <- app_assoc. reflexivity.
Qed.

(** C5 (as amended).  For non-empty email and password with the store
    reachable, an unknown email and a registered email with a wrong
    password get the same answer, 401 "Invalid email or password"; but
    the two runs do different work: the unknown-email run does no bcrypt
    comparison, the wrong-password run does one. *)
Theorem login_unknown_vs_wrong_password : forall w e1 p1 e2 p2 u h,
  store_up w = true -> e1 <> "" -> p1 <> "" -> e2 <> "" -> p2 <> "" ->
  find (fun x => String.eqb (email x) e1) (users w) = None ->
  find (fun x => String.eqb (email x) e2) (users w) = Some u ->
  password u = Some h -> bcrypt_compare bcrypt_digest p2 h = false ->
  login bcrypt_digest jwt_sign (JObj [("email", JStr e1); ("password", JStr p1)]) w =
    (Ret (mkResponse 401 (fail_body "Invalid email or password")),
     mkWorld (users w) (store_up w) (log w ++ [ERead]))
  /\ login bcrypt_digest jwt_sign (JObj [("email", JStr e2); ("password", JStr p2)]) w =
    (Ret (mkResponse 401 (fail_body "Invalid email or password")),
     mkWorld (users w) (store_up w) (log w ++ [ERead; ECompare])).
Proof.
  intros w e1 p1 e2 p2 u h Hup He1 Hp1 He2 Hp2 Hnone Hsome Hh Hbad.
  split; unfold login, try_catch; cbv zeta.
  - set (b := JObj [("email", JStr e1); ("password", JStr p1)]).
    assert (P1 : prop b "email" = JStr e1) by reflexivity.
    assert (P2 : prop b "password" = JStr p1) by reflexivity.
    rewrite !P1, !P2, !truthy_nonempty by assumption. cbn [negb orb].
    erewrite bind_ret; [|apply findOne_email_eq; exact Hup].
    rewrite Hnone. reflexivity.
  - set (b := JObj [("email", JStr e2); ("password", JStr p2)]).
    assert (P1 : prop b "email" = JStr e2) by reflexivity.
    assert (P2 : prop b "password" = JStr p2) by reflexivity.
    rewrite !P1, !P2, !truthy_nonempty by assumption. cbn [negb orb].
    erewrite bind_ret; [|apply findOne_email_eq; exact Hup].
    rewrite Hsome.
    erewrite bind_ret; [|apply comparePassword_eq; exact Hh].
    rewrite Hbad. unfold ret. cbn [users store_up log]. rewrite <- app_assoc. reflexivity.
Qed.

(** ** Splitting on spaces *)

Lemma js_split_space_nonempty (s : string) : js_split_space s <> [].
Proof.
  destruct s as [|c rest]; simpl; [discriminate|].
  destruct (Ascii.eqb c " "%char); [discriminate|].
  destruct (js_split_space rest); discriminate.
Qed.

Lemma concat_cons_char (c : ascii) (h : string) (t : list string) :
  String.concat " " (String c h :: t) = String c (String.concat " " (h :: t)).
Proof. destruct t; reflexivity. Qed.

(** [s.split(' ').join(' ')] gives [s] back: the fields lose nothing. *)
Theorem js_split_space_join (s : string) : String.concat " " (js_split_space s) = s.
Proof.
  induction s as [|c rest IH]; [reflexivity|].
  pose proof (js_split_space_nonempty rest) as N.
  simpl js_split_space. destruct (js_split_space rest) as [|h t] eqn:R; [contradiction|].
  destruct (Ascii.eqb c " "%char) eqn:E.
  - apply Ascii.eqb_eq in E. subst c.
    change (String.concat " " ("" :: h :: t)) with ("" ++ " " ++ String.concat " " (h :: t))%string.
    rewrite IH. reflexivity.
  - cbv iota. rewrite concat_cons_char, IH. reflexivity.
Qed.

Lemma split_no_space (t : string) : has_space t = false -> js_split_space t = [t].
Proof.
  induction t as [|c rest IH]; simpl; intros H; [reflexivity|].
  apply orb_false_iff in H as [H1 H2]. rewrite H1, IH by exact H2. reflexivity.
Qed.

Lemma bearer_header_split (t : string) :
  has_space t = false -> bearer_token (Some ("Bearer " ++ t)%string) = Some t.
Proof. intros H. unfold bearer_token. simpl. rewrite split_no_space by exact H. reflexivity. Qed.

(** The header the client sends, [`Bearer ${token}`], hands the gate back
    the token, whenever the token has no space in it. *)
Theorem bearer_token_of_header (t : string) :
  has_space t = false -> bearer_token (Some ("Bearer " ++ t)%string) = Some t.
Proof. exact (bearer_header_split t). Qed.

(** ** Handlers that only read *)

Lemma ro_findOne_email (e : json) : read_only (findOne_email e).
Proof. apply ro_bind; [apply ro_emit; discriminate|]. intros _. apply ro_store_op. Qed.

Lemma ro_comparePassword (c : json) (u : user) : read_only (comparePassword bcrypt_digest c u).
Proof.
  apply ro_bind; [apply ro_emit; discriminate|]. intros _.
  destruct c; destruct (password u); cbv iota; auto with readonly.
Qed.

(** Login never writes to the store, whatever the request. *)
Theorem login_read_only (reqbody : json) : read_only (login bcrypt_digest jwt_sign reqbody).
Proof.
  unfold login. apply ro_try; [|auto with readonly]. cbv zeta.
  destruct (_ || _); [auto with readonly|].
  apply ro_bind; [apply ro_findOne_email|]. intros [u|]; [|auto with readonly].
  apply ro_bind; [apply ro_comparePassword|]. intros [|]; auto with readonly.
Qed.

Lemma ro_fetch_favorite (fav : favorite) : read_only (fetch_favorite tmdb_movie fav).
Proof.
  unfold fetch_favorite. apply ro_try; [|auto with readonly].
  apply ro_bind; [apply ro_emit; discriminate|]. intros _.
  destruct (tmdb_movie _) as [[]|]; auto with readonly.
Qed.

Lemma ro_promise_all {A} (ms : list (M A)) :
  Forall read_only ms -> read_only (promise_all ms).
Proof.
  induction 1 as [|m rest Hm _ IH]; [apply ro_ret|]. simpl.
  apply ro_bind; [exact Hm|]. intros a. apply ro_bind; [exact IH|]. intros r. apply ro_ret.
Qed.

(** Listing the favorites never writes to the store, whatever the user
    and whatever the catalog answers. *)
Theorem get_favorites_read_only (req_user : user) : read_only (get_favorites tmdb_movie req_user).
Proof.
  unfold get_favorites. apply ro_try; [|auto with readonly].
  apply ro_bind; [apply ro_findById|]. intros [u|]; [|auto with readonly].
  apply ro_bind; [|auto with readonly].
  apply ro_promise_all. apply Forall_forall. intros m Hm.
  apply in_map_iff in Hm as [fav [<- _]]. apply ro_fetch_favorite.
Qed.

(** ** Registration followed by login or by an authenticated request *)

Lemma register_new_user (fresh_id salt n e p : string) (w : world) :
  store_up w = true -> n <> "" -> e <> "" -> p <> "" ->
  find (fun u => String.eqb (email u) e || String.eqb (username u) n) (users w) = None ->
  existsb (fun x => String.eqb (_id x) fresh_id) (users w) = false ->
  register bcrypt_digest jwt_sign fresh_id salt
    (JObj [("username", JStr n); ("email", JStr e); ("password", JStr p)]) w =
  (Ret (mkResponse 201
          (JObj [("success", JBool true);
                 ("message", JStr "User registered successfully");
                 ("user", JObj [("id", JStr fresh_id); ("username", JStr n); ("email", JStr e)]);
                 ("token", JStr (jwt_sign (JObj [("userId", JStr fresh_id); ("email", JStr e)])))])),
   mkWorld (users w ++ [mkUser fresh_id n e (Some (bcrypt_hash bcrypt_digest salt p)) [] []])
           (store_up w) (log w ++ [ERead; EHash; EWrite])).
Proof.
  intros Hup Hn He Hp Hnone Hid.
  unfold register, try_catch. cbv zeta.
  set (b := JObj [("username", JStr n); ("email", JStr e); ("password", JStr p)]).
  assert (P1 : prop b "username" = JStr n) by reflexivity.
  assert (P2 : prop b "email" = JStr e) by reflexivity.
  assert (P3 : prop b "password" = JStr p) by reflexivity.
  rewrite !P1, !P2, !P3, !truthy_nonempty by assumption. cbn [negb orb].
  erewrite bind_ret; [|apply findOne_email_or_username_eq; exact Hup].
  rewrite Hnone. cbn [cast_string].
  erewrite bind_ret; [|apply save_new_user; cbn [users store_up]; eauto].
  cbn [cur]. unfold ret. cbn [users store_up log]. rewrite <- app_assoc. reflexivity.
Qed.

Lemma substring_prefix (s t : string) : substring 0 (String.length s) (s ++ t) = s.
Proof. induction s as [|c rest IH]; simpl; [now destruct t | now rewrite IH]. Qed.

(** [bcrypt.compare(p, await bcrypt.hash(p, 12))] holds for a salt of the
    22 characters bcrypt draws. *)
Lemma bcrypt_compare_hash (salt p : string) :
  String.length salt = 22%nat ->
  bcrypt_compare bcrypt_digest p (bcrypt_hash bcrypt_digest salt p) = true.
Proof.
  intros L. unfold bcrypt_compare.
  assert (S : substring 7 22 (bcrypt_hash bcrypt_digest salt p) = salt).
  { unfold bcrypt_hash.
    change (substring 7 22 ("$2a$12$" ++ (salt ++ bcrypt_digest salt p)))
      with (substring 0 22 (salt ++ bcrypt_digest salt p)).
    rewrite <- L. apply substring_prefix. }
  rewrite S. apply String.eqb_refl.
Qed.

Lemma find_email_append (us : list user) (u : user) (e n : string) :
  find (fun x => String.eqb (email x) e || String.eqb (username x) n) us = None ->
  email u = e -> find (fun x => String.eqb (email x) e) (us ++ [u]) = Some u.
Proof.
  intros H Hu. induction us as [|x rest IH]; simpl in *.
  - rewrite Hu, String.eqb_refl. reflexivity.
  - destruct (String.eqb (email x) e); [discriminate|].
    destruct (String.eqb (username x) n); [discriminate|]. apply IH. exact H.
Qed.

(** Register then login: after a successful registration with non-empty
    username, email and password (and the 22-character salt bcrypt
    draws), logging in with the same email and password succeeds and
    names the new account. *)
Theorem register_then_login : forall fresh_id salt n e p w,
  store_up w = true -> n <> "" -> e <> "" -> p <> "" -> String.length salt = 22%nat ->
  find (fun u => String.eqb (email u) e || String.eqb (username u) n) (users w) = None ->
  existsb (fun x => String.eqb (_id x) fresh_id) (users w) = false ->
  fst (login bcrypt_digest jwt_sign (JObj [("email", JStr e); ("password", JStr p)])
         (snd (register bcrypt_digest jwt_sign fresh_id salt
                 (JObj [("username", JStr n); ("email", JStr e); ("password", JStr p)]) w))) =
  Ret (mkResponse 200
         (JObj [("success", JBool true); ("message", JStr "Login successful");
                ("user", JObj [("id", JStr fresh_id); ("username", JStr n); ("email", JStr e)]);
                ("token", JStr (jwt_sign (JObj [("userId", JStr fresh_id); ("email", JStr e)])))])).
Proof.
  intros fresh_id salt n e p w Hup Hn He Hp L Hnone Hid.
  rewrite register_new_user by assumption. cbn [snd].
  unfold login, try_catch. cbv zeta.
  set (b := JObj [("email", JStr e); ("password", JStr p)]).
  assert (P1 : prop b "email" = JStr e) by reflexivity.
  assert (P2 : prop b "password" = JStr p) by reflexivity.
  rewrite !P1, !P2, !truthy_nonempty by assumption. cbn [negb orb].
  erewrite bind_ret; [|apply findOne_email_eq; exact Hup].
  cbn [users].
  rewrite (find_email_append _ (mkUser fresh_id n e (Some (bcrypt_hash bcrypt_digest salt p)) [] [])
             e n Hnone eq_refl).
  erewrite bind_ret; [|apply comparePassword_eq; reflexivity].
  rewrite bcrypt_compare_hash by exact L. reflexivity.
Qed.

(** Register then an authenticated request: the token returned by a
    successful registration, sent back as [Bearer <token>], lets the gate
    through as the new user (password removed), provided the token
    verifies to the payload it was signed from, is non-empty and has no
    space, and the drawn identifier is an [ObjectId]. *)
Theorem register_token_passes_gate : forall fresh_id salt n e p token w,
  store_up w = true -> n <> "" -> e <> "" -> p <> "" -> is_object_id fresh_id = true ->
  find (fun u => String.eqb (email u) e || String.eqb (username u) n) (users w) = None ->
  existsb (fun x => String.eqb (_id x) fresh_id) (users w) = false ->
  jwt_sign (JObj [("userId", JStr fresh_id); ("email", JStr e)]) = token ->
  token <> "" -> has_space token = false ->
  jwt_verify token = Some (JObj [("userId", JStr fresh_id); ("email", JStr e)]) ->
  fst (authenticateToken jwt_verify (Some ("Bearer " ++ token)%string)
         (snd (register bcrypt_digest jwt_sign fresh_id salt
                 (JObj [("username", JStr n); ("email", JStr e); ("password", JStr p)]) w))) =
  Ret (GNext (mkUser fresh_id n e None [] [])).
Proof.
  intros fresh_id salt n e p token w Hup Hn He Hp Hoid Hnone Hid Hsign Hne Hsp Hver.
  rewrite register_new_user by assumption. cbn [snd].
  unfold authenticateToken. rewrite bearer_header_split by exact Hsp.
  rewrite truthy_nonempty by exact Hne. cbv beta iota. change (negb true) with false. cbv iota.
  rewrite verify_and_load_eq, Hver. cbn [store_up users]. rewrite Hup.
  change (prop (JObj [("userId", JStr fresh_id); ("email", JStr e)]) "userId") with (JStr fresh_id).
  unfold user_for_id. rewrite Hoid. rewrite find_user_by_id_append by auto. reflexivity.
Qed.

(** ** Required fields *)

(** Register and login check their fields before anything else: when one
    is falsy the answer is 400 and the run has no effect at all. *)
Theorem auth_missing_fields : forall fresh_id salt reqbody w,
  (truthy (prop reqbody "username") = false \/ truthy (prop reqbody "email") = false
   \/ truthy (prop reqbody "password") = false ->
   register bcrypt_digest jwt_sign fresh_id salt reqbody w =
   (Ret (mkResponse 400 (fail_body "All fields are required")), w))
  /\ (truthy (prop reqbody "email") = false \/ truthy (prop reqbody "password") = false ->
      login bcrypt_digest jwt_sign reqbody w =
      (Ret (mkResponse 400 (fail_body "Email and password are required")), w)).
Proof using bcrypt_digest jwt_sign.
  intros fresh_id salt reqbody w. split.
  - unfold register, try_catch. cbv zeta.
    destruct (truthy (prop reqbody "username")), (truthy (prop reqbody "email")),
      (truthy (prop reqbody "password")); cbn [negb orb];
      intros H; first [reflexivity | decompose [or] H; discriminate].
  - unfold login, try_catch. cbv zeta.
    destruct (truthy (prop reqbody "email")), (truthy (prop reqbody "password")); cbn [negb orb];
      intros H; first [reflexivity | decompose [or] H; discriminate].
Qed.

(** ** Unique stored users *)




(** ** Adding a favorite that is not there yet *)



(** ** Favorites without a stored record *)

(** When the store is down or holds no record for the signed-in user,
    listing the favorites answers 500 "Error fetching favorites", and
    adding one (with a truthy [movieId]) answers 500 "Error adding to
    favorites" after a single read, writing nothing. *)
Theorem favorites_without_record : forall now salt req_user reqbody w,
  store_up w = false \/ find_user_by_id (_id req_user) (users w) = None ->
  fst (get_favorites tmdb_movie req_user w) = Ret (mkResponse 500 (fail_body "Error fetching favorites"))
  /\ (truthy (prop reqbody "movieId") = true ->
      add_favorite bcrypt_digest now salt req_user reqbody w =
      (Ret (mkResponse 500 (fail_body "Error adding to favorites")),
       mkWorld (users w) (store_up w) (log w ++ [ERead]))).
Proof.
  intros now salt req_user reqbody w H.
  assert (F : fst (findById (JStr (_id req_user)) w) = Ret None
              \/ exists e, fst (findById (JStr (_id req_user)) w) = Throw e).
  { rewrite findById_eq. cbn [fst]. destruct (store_up w) eqn:Hup.
    - destruct H as [H|H]; [discriminate|]. unfold user_for_id.
      destruct (is_object_id _); [rewrite H; auto | eauto].
    - eauto. }
  assert (W : snd (findById (JStr (_id req_user)) w) = mkWorld (users w) (store_up w) (log w ++ [ERead]))
    by (rewrite findById_eq; reflexivity).
  split.
  - unfold get_favorites, try_catch, bind.
    destruct (findById (JStr (_id req_user)) w) as [o w'].
    cbn [fst] in F. destruct F as [->|[e ->]]; reflexivity.
  - intros T. unfold add_favorite, try_catch. cbv zeta. rewrite T. cbv beta iota.
    change (negb true) with false. cbv iota. unfold bind.
    destruct (findById (JStr (_id req_user)) w) as [o w'].
    cbn [fst snd] in F, W. subst w'. destruct F as [->|[e ->]]; reflexivity.
Qed.

(** ** The catalog routes *)

Lemma read_nonnull (v : json) (k : string) :
  v <> JUndef -> v <> JNull -> read v k = inr (prop v k).
Proof. intros H1 H2. destruct v; try congruence; reflexivity. Qed.

Lemma read_of_array (v : json) (k : string) (xs : list json) :
  prop v k = JArr xs -> read v k = inr (JArr xs).
Proof. intros H. destruct v; simpl in *; try discriminate; exact (f_equal inr H). Qed.

Lemma read_all_nonnull (v : json) (ks : list string) :
  v <> JUndef -> v <> JNull -> read_all v ks = inr (map (prop v) ks).
Proof.
  intros H1 H2. induction ks as [|k rest IH]; [reflexivity|]. simpl.
  rewrite read_nonnull by assumption. cbn [jbind]. rewrite IH. reflexivity.
Qed.

Lemma combine_map_self (ks : list string) (f : string -> json) :
  combine ks (map f ks) = map (fun k => (k, f k)) ks.
Proof. induction ks as [|k rest IH]; simpl; [reflexivity | now rewrite IH]. Qed.

Lemma pick_nonnull (ks : list string) (r : json) :
  r <> JUndef -> r <> JNull -> pick ks r = inr (projection ks r).
Proof.
  intros H1 H2. unfold pick, projection. rewrite read_all_nonnull by assumption.
  cbn [jbind]. rewrite combine_map_self. reflexivity.
Qed.

Lemma map_all_pick (ks : list string) (rs : list json) :
  Forall (fun r => r <> JUndef /\ r <> JNull) rs ->
  map_all (pick ks) rs = inr (map (projection ks) rs).
Proof.
  induction 1 as [|r rest [H1 H2] _ IH]; [reflexivity|]. simpl.
  rewrite pick_nonnull by assumption. cbn [jbind]. rewrite IH. reflexivity.
Qed.

Lemma map_all_pick_null (rest : list string) (rs : list json) :
  ~ In JUndef rs -> In JNull rs ->
  map_all (pick ("id" :: rest)) rs = inl (TypeError (cannot_read JNull "id")).
Proof using.
  induction rs as [|r rs IH]; simpl; intros Hu Hn; [contradiction|].
  destruct r; try (exfalso; apply Hu; left; reflexivity); try reflexivity;
    (rewrite pick_nonnull by discriminate; cbn [jbind];
     destruct Hn as [Hn|Hn]; [discriminate|];
     rewrite IH; [reflexivity | intro Hi; apply Hu; right; exact Hi | exact Hn]).
Qed.

(** Without [page] in the query the catalog is asked for page 1, and a
    search without a truthy [query] is answered 400 "Search query is
    required" whatever the catalog would have said: no request is made. *)
Theorem catalog_query_defaults : forall query,
  (truthy (prop query "query") = false ->
   search_movies tmdb_get query = mkResponse 400 (fail_body "Search query is required"))
  /\ (prop query "page" = JUndef ->
      popular_movies tmdb_get query = popular_movies tmdb_get (JObj [("page", JNum 1)])
      /\ search_movies tmdb_get query
         = search_movies tmdb_get (JObj [("query", prop query "query"); ("page", JNum 1)])).
Proof.
  intros query. split.
  - intros H. unfold search_movies. cbv zeta. rewrite H. reflexivity.
  - intros H. split.
    + unfold popular_movies. cbv zeta. rewrite H. reflexivity.
    + unfold search_movies. cbv zeta. rewrite H. reflexivity.
Qed.

(** When the catalog rejects every request, the popular, search and
    details routes answer 500 with their own message and, as [error], the
    [status_message] of the rejected reply when it is truthy and the
    request's error message otherwise (for search, once the query has
    passed its check); the genres route answers 500 with no error
    detail. *)
Theorem catalog_rejection_responses : forall rdata msg query id,
  (forall path params, tmdb_get path params = TError rdata msg) ->
  let detail := if truthy (prop rdata "status_message") then prop rdata "status_message"
                else JStr msg in
  popular_movies tmdb_get query =
    mkResponse 500 (JObj [("success", JBool false);
                          ("message", JStr "Error fetching movies from TMDB"); ("error", detail)])
  /\ (truthy (prop query "query") = true ->
      search_movies tmdb_get query =
      mkResponse 500 (JObj [("success", JBool false);
                            ("message", JStr "Error searching movies"); ("error", detail)]))
  /\ movie_details tmdb_get id =
    mkResponse 500 (JObj [("success", JBool false);
                          ("message", JStr "Error fetching movie details"); ("error", detail)])
  /\ movie_genres tmdb_get = mkResponse 500 (fail_body "Error fetching genres").
Proof.
  intros rdata msg query id H. cbv zeta.
  split; [|split; [|split]].
  - unfold popular_movies, handle, await_get. rewrite H. reflexivity.
  - intros Hq. unfold search_movies. cbv zeta. rewrite Hq. cbn [negb].
    unfold handle, await_get. rewrite H. reflexivity.
  - unfold movie_details, handle, await_get. rewrite H. reflexivity.
  - unfold movie_genres, await_get. rewrite H. reflexivity.
Qed.

(** The popular and search routes answer 200 with one projection per
    catalog entry, in order (nine fields for popular, six for search) and
    the paging fields of the reply; search also echoes the query.  A
    [null] entry in the popular results fails the whole request with 500
    instead of being skipped. *)
Theorem catalog_results_projection : forall query data rs,
  prop data "results" = JArr rs ->
  ((forall params, tmdb_get "/movie/popular" params = TData data) ->
   Forall (fun r => r <> JUndef /\ r <> JNull) rs ->
   popular_movies tmdb_get query =
     mkResponse 200 (JObj [("success", JBool true);
                           ("results", JArr (map (projection popular_fields) rs));
                           ("total_pages", prop data "total_pages");
                           ("total_results", prop data "total_results");
                           ("page", prop data "page")]))
  /\ ((forall params, tmdb_get "/movie/popular" params = TData data) ->
      ~ In JUndef rs -> In JNull rs ->
      popular_movies tmdb_get query =
        mkResponse 500 (JObj [("success", JBool false);
                              ("message", JStr "Error fetching movies from TMDB");
                              ("error", JStr "Cannot read properties of null (reading 'id')")]))
  /\ ((forall params, tmdb_get "/search/movie" params = TData data) ->
      truthy (prop query "query") = true ->
      Forall (fun r => r <> JUndef /\ r <> JNull) rs ->
      search_movies tmdb_get query =
        mkResponse 200 (JObj [("success", JBool true);
                              ("results", JArr (map (projection search_fields) rs));
                              ("total_pages", prop data "total_pages");
                              ("total_results", prop data "total_results");
                              ("page", prop data "page"); ("query", prop query "query")])).
Proof.
  intros query data rs Hr. split; [|split].
  - intros H F. unfold popular_movies, handle, await_get. cbv zeta. rewrite H. cbn [jbind].
    rewrite (read_of_array _ _ _ Hr). cbn [jbind js_map].
    rewrite map_all_pick by exact F. reflexivity.
  - intros H Hu Hn. unfold popular_movies, handle, await_get. cbv zeta. rewrite H. cbn [jbind].
    rewrite (read_of_array _ _ _ Hr). cbn [jbind js_map]. unfold popular_fields.
    rewrite map_all_pick_null by assumption. reflexivity.
  - intros H Hq F. unfold search_movies. cbv zeta. rewrite Hq. cbn [negb].
    unfold handle, await_get. rewrite H. cbn [jbind].
    rewrite (read_of_array _ _ _ Hr). cbn [jbind js_map].
    rewrite map_all_pick by exact F. reflexivity.
Qed.

Lemma movie_details_cases (id : string) :
  prop (body (movie_details tmdb_get id)) "data" = JUndef
  \/ exists data cast crew similar,
       optional_slice (prop data "credits") "cast" 10 "response.data.credits?.cast" = inr cast
       /\ optional_slice (prop data "credits") "crew" 5 "response.data.credits?.crew" = inr crew
       /\ optional_slice (prop data "similar") "results" 6 "response.data.similar?.results"
          = inr similar
       /\ status (movie_details tmdb_get id) = 200
       /\ prop (prop (body (movie_details tmdb_get id)) "data") "cast" = cast
       /\ prop (prop (body (movie_details tmdb_get id)) "data") "crew" = crew
       /\ prop (prop (body (movie_details tmdb_get id)) "data") "videos"
          = optional_prop (prop data "videos") "results"
       /\ prop (prop (body (movie_details tmdb_get id)) "data") "similar" = similar.
Proof.
  unfold movie_details, handle.
  destruct (await_get tmdb_get ("/movie/" ++ id)%string
              [("append_to_response", JStr "credits,videos,similar")]) as [e|data];
    cbn [jbind]; [left; reflexivity|].
  destruct (read data "id") as [e|x]; cbn [jbind]; [left; reflexivity|].
  destruct (optional_slice (prop data "credits") "cast" 10 "response.data.credits?.cast")
    as [e|cast] eqn:Ca; cbn [jbind]; [left; reflexivity|].
  destruct (optional_slice (prop data "credits") "crew" 5 "response.data.credits?.crew")
    as [e|crew] eqn:Cr; cbn [jbind]; [left; reflexivity|].
  destruct (optional_slice (prop data "similar") "results" 6 "response.data.similar?.results")
    as [e|similar] eqn:Si; cbn [jbind]; [left; reflexivity|].
  right. exists data, cast, crew, similar. repeat split; auto.
Qed.

Lemma optional_slice_bound (base : json) (key : string) (n : nat) (what : string) (xs : list json) :
  optional_slice base key n what = inr (JArr xs) -> (length xs <= n)%nat.
Proof.
  unfold optional_slice, or_empty. intros H.
  destruct base; try (injection H as <-; simpl; lia);
    destruct (prop _ key) as [| | | |str|ys|]; simpl in H; try discriminate;
    try (destruct (String.eqb (substring 0 n str) ""); simpl in H;
         [injection H as <-; simpl; lia | discriminate]);
    injection H as <-; apply firstn_le_length.
Qed.

(** Whatever the catalog answers, the details route never returns more
    than 10 cast members, 5 crew members or 6 similar movies. *)
Theorem movie_details_bounds : forall id xs,
  (prop (prop (body (movie_details tmdb_get id)) "data") "cast" = JArr xs -> (length xs <= 10)%nat)
  /\ (prop (prop (body (movie_details tmdb_get id)) "data") "crew" = JArr xs -> (length xs <= 5)%nat)
  /\ (prop (prop (body (movie_details tmdb_get id)) "data") "similar" = JArr xs ->
      (length xs <= 6)%nat).
Proof.
  intros id xs.
  destruct (movie_details_cases id) as [H | (data & cast & crew & similar & Ca & Cr & Si & _ & Pc & Pr & _ & Ps)].
  - rewrite H. repeat split; discriminate.
  - rewrite Pc, Pr, Ps. repeat split; intros ->; eapply optional_slice_bound; eassumption.
Qed.

(** A details reply without [credits], [videos] and [similar] still gets
    200, with an empty list for each of cast, crew, videos and similar;
    with the lists present, cast, crew and similar are their first 10, 5
    and 6 entries and the videos are passed on whole. *)
Theorem movie_details_sections : forall id fs,
  tmdb_get ("/movie/" ++ id)%string [("append_to_response", JStr "credits,videos,similar")]
    = TData (JObj fs) ->
  (prop (JObj fs) "credits" = JUndef -> prop (JObj fs) "videos" = JUndef ->
   prop (JObj fs) "similar" = JUndef ->
   status (movie_details tmdb_get id) = 200
   /\ prop (prop (body (movie_details tmdb_get id)) "data") "cast" = JArr []
   /\ prop (prop (body (movie_details tmdb_get id)) "data") "crew" = JArr []
   /\ prop (prop (body (movie_details tmdb_get id)) "data") "videos" = JArr []
   /\ prop (prop (body (movie_details tmdb_get id)) "data") "similar" = JArr [])
  /\ (forall cs cr vs ss,
      prop (prop (JObj fs) "credits") "cast" = JArr cs ->
      prop (prop (JObj fs) "credits") "crew" = JArr cr ->
      prop (prop (JObj fs) "videos") "results" = JArr vs ->
      prop (prop (JObj fs) "similar") "results" = JArr ss ->
      status (movie_details tmdb_get id) = 200
      /\ prop (prop (body (movie_details tmdb_get id)) "data") "cast" = JArr (firstn 10 cs)
      /\ prop (prop (body (movie_details tmdb_get id)) "data") "crew" = JArr (firstn 5 cr)
      /\ prop (prop (body (movie_details tmdb_get id)) "data") "videos" = JArr vs
      /\ prop (prop (body (movie_details tmdb_get id)) "data") "similar" = JArr (firstn 6 ss)).
Proof.
  intros id fs H. unfold movie_details, handle, await_get. rewrite H. cbn [jbind read].
  split.
  - intros Hc Hv Hs. rewrite Hc, Hs. cbn [optional_slice jbind]. unfold optional_prop.
    rewrite Hv. repeat split.
  - intros cs cr vs ss Hcs Hcr Hvs Hss.
    assert (Nc : forall v, prop (JObj fs) "credits" = v -> v <> JUndef /\ v <> JNull).
    { intros v <-. split; intros E; rewrite E in Hcs; discriminate. }
    assert (Ns : forall v, prop (JObj fs) "similar" = v -> v <> JUndef /\ v <> JNull).
    { intros v <-. split; intros E; rewrite E in Hss; discriminate. }
    assert (Nv : forall v, prop (JObj fs) "videos" = v -> v <> JUndef /\ v <> JNull).
    { intros v <-. split; intros E; rewrite E in Hvs; discriminate. }
    unfold optional_slice, optional_prop.
    destruct (prop (JObj fs) "credits") eqn:C;
      try (destruct (Nc _ eq_refl); congruence);
    destruct (prop (JObj fs) "similar") eqn:S;
      try (destruct (Ns _ eq_refl); congruence);
    destruct (prop (JObj fs) "videos") eqn:V;
      try (destruct (Nv _ eq_refl); congruence);
    rewrite Hcs, Hcr, Hss, Hvs; cbn [js_slice jbind or_empty truthy]; repeat split.
Qed.

End Proofs.

(** * Concrete runs *)

(** The spec's scenario: favorites [101; 202; 303], the lookup of 202
    fails; the answer lists 101 and 303, in that order, with their
    [addedAt]. *)
Example favorites_scenario :
  fst (get_favorites sample_catalog ana sample_world) =
  Ret (mkResponse 200
         (JObj [("success", JBool true);
                ("favorites", JArr [movie_summary (JObj [("id", JNum 101); ("title", JStr "Movie");
                                                         ("overview", JStr "");
                                                         ("poster_path", JStr "/p.jpg");
                                                         ("release_date", JStr "2020-01-01");
                                                         ("vote_average", JNum 7)]) 1000;
                                    movie_summary (JObj [("id", JNum 303); ("title", JStr "Movie");
                                                         ("overview", JStr "");
                                                         ("poster_path", JStr "/p.jpg");
                                                         ("release_date", JStr "2020-01-01");
                                                         ("vote_average", JNum 7)]) 3000])])).
Proof. vm_compute. reflexivity. Qed.

Lemma get_favorites_partial_failure_witness :
  fst (get_favorites sample_catalog ana sample_world) =
  Ret (mkResponse 200 (JObj [("success", JBool true);
                             ("favorites", JArr (favorites_spec sample_catalog (favorites ana)))]))
  /\ fst (get_favorites (fun _ => Some JNull) ana sample_world) =
     Ret (mkResponse 200 (JObj [("success", JBool true); ("favorites", JArr [])])).
Proof.
  split.
  - apply (proj2 (get_favorites_partial_failure sample_catalog ana ana sample_world
                    eq_refl eq_refl eq_refl)).
    intros m. unfold sample_catalog. destruct (Z.eqb m 202); split; discriminate.
  - rewrite (proj1 (get_favorites_partial_failure (fun _ => Some JNull) ana ana sample_world
                      eq_refl eq_refl eq_refl)).
    vm_compute. reflexivity.
Defined.

(** C2 counterexample: the header ["Basic dXNlcjpwYXNz"] is not of the
    form ["Bearer <token>"], yet the gate does not answer "Access token
    required": it verifies ["dXNlcjpwYXNz"] and answers "Invalid token". *)
Lemma authenticateToken_basic_scheme_verified :
  authenticateToken (fun _ => None) (Some "Basic dXNlcjpwYXNz") sample_world =
  (Ret invalid_token, mkWorld [ana] true [EVerify])
  /\ fst (authenticateToken (fun _ => None) (Some "Basic dXNlcjpwYXNz") sample_world)
     <> Ret access_token_required.
Proof. split; [vm_compute; reflexivity | vm_compute; discriminate]. Qed.

(** C3 counterexample: the token verifies, its [userId] names a stored
    user, and still the gate answers "Invalid token" because the store is
    unreachable. *)
Lemma authenticateToken_store_down_invalid :
  sample_verify "good" = Some (JObj [("userId", JStr ana_id); ("email", JStr "a@x.com")])
  /\ find_user_by_id ana_id (users (mkWorld [ana] false [])) = Some ana
  /\ fst (authenticateToken sample_verify (Some "Bearer good") (mkWorld [ana] false [])) =
     Ret invalid_token.
Proof. split; [|split]; vm_compute; reflexivity. Qed.

Lemma authenticateToken_invalid_token_cases_witness :
  fst (authenticateToken sample_verify (Some "Bearer good") sample_world) =
  Ret (GNext (without_password ana)).
Proof.
  rewrite (authenticateToken_invalid_token_cases sample_verify (Some "Bearer good") "good"
             sample_world eq_refl ltac:(discriminate)).
  vm_compute. reflexivity.
Defined.

(** C4 counterexample: ["ana"] / ["a@x.com"] is taken, but with an empty
    password the answer is 400 "All fields are required", not the
    conflict. *)
Lemma register_empty_password_not_conflict :
  find (fun u => String.eqb (email u) "a@x.com" || String.eqb (username u) "ana")
       (users sample_world) = Some ana
  /\ register sample_digest sample_sign "64b7f0c2a1e4d3b2c1a09f02" sample_salt
       (JObj [("username", JStr "ana"); ("email", JStr "a@x.com"); ("password", JStr "")])
       sample_world =
     (Ret (mkResponse 400 (fail_body "All fields are required")), sample_world).
Proof. split; vm_compute; reflexivity. Qed.

Lemma register_conflict_or_create_witness :
  register sample_digest sample_sign "64b7f0c2a1e4d3b2c1a09f02" sample_salt
    (JObj [("username", JStr "bo"); ("email", JStr "b@x.com"); ("password", JStr "pw")])
    sample_world =
  (Ret (mkResponse 201
          (JObj [("success", JBool true);
                 ("message", JStr "User registered successfully");
                 ("user", JObj [("id", JStr "64b7f0c2a1e4d3b2c1a09f02"); ("username", JStr "bo");
                                ("email", JStr "b@x.com")]);
                 ("token", JStr (sample_sign (JObj [("userId", JStr "64b7f0c2a1e4d3b2c1a09f02");
                                                    ("email", JStr "b@x.com")])))])),
   mkWorld (users sample_world
            ++ [mkUser "64b7f0c2a1e4d3b2c1a09f02" "bo" "b@x.com"
                  (Some (bcrypt_hash sample_digest sample_salt "pw")) [] []])%list
           (store_up sample_world) (log sample_world ++ [ERead; EHash; EWrite])%list).
Proof.
  apply (proj2 (register_conflict_or_create sample_digest sample_sign "64b7f0c2a1e4d3b2c1a09f02"
                  sample_salt "bo" "b@x.com" "pw" sample_world eq_refl
                  ltac:(discriminate) ltac:(discriminate) ltac:(discriminate)));
    vm_compute; reflexivity.
Defined.

(** C5 counterexample: same answer for an unknown email and for a wrong
    password, but only the second run performs a bcrypt comparison. *)
Lemma login_unequal_work :
  fst (login sample_digest sample_sign
         (JObj [("email", JStr "z@x.com"); ("password", JStr "secret1")]) sample_world) =
  fst (login sample_digest sample_sign
         (JObj [("email", JStr "a@x.com"); ("password", JStr "wrong")]) sample_world)
  /\ count_event ECompare
       (log (snd (login sample_digest sample_sign
                    (JObj [("email", JStr "z@x.com"); ("password", JStr "secret1")])
                    sample_world))) = 0%nat
  /\ count_event ECompare
       (log (snd (login sample_digest sample_sign
                    (JObj [("email", JStr "a@x.com"); ("password", JStr "wrong")])
                    sample_world))) = 1%nat.
Proof. split; [|split]; vm_compute; reflexivity. Qed.

Lemma login_unknown_vs_wrong_password_witness :
  login sample_digest sample_sign (JObj [("email", JStr "z@x.com"); ("password", JStr "secret1")])
    sample_world =
    (Ret (mkResponse 401 (fail_body "Invalid email or password")),
     mkWorld (users sample_world) (store_up sample_world) (log sample_world ++ [ERead])%list)
  /\ login sample_digest sample_sign (JObj [("email", JStr "a@x.com"); ("password", JStr "wrong")])
    sample_world =
    (Ret (mkResponse 401 (fail_body "Invalid email or password")),
     mkWorld (users sample_world) (store_up sample_world)
             (log sample_world ++ [ERead; ECompare])%list).
Proof.
  apply (login_unknown_vs_wrong_password sample_digest sample_sign sample_world
           "z@x.com" "secret1" "a@x.com" "wrong" ana
           (bcrypt_hash sample_digest sample_salt "secret1"));
    first [discriminate | vm_compute; reflexivity].
Defined.

(** C6.  Posting [{movieId: "550"}] twice for a user without favorites:
    both calls answer 200 "Movie added to favorites" and the stored list
    holds movie 550 twice.  The duplicate test compares the stored number
    550 with the string ["550"] using [===]. *)
Theorem add_favorite_string_id_duplicates :
  fst (add_favorite sample_digest 5000 sample_salt (mkUser ana_id "ana" "a@x.com"
         (password ana) [] []) (JObj [("movieId", JStr "550")])
         (mkWorld [mkUser ana_id "ana" "a@x.com" (password ana) [] []] true [])) =
    Ret (mkResponse 200 (JObj [("success", JBool true); ("message", JStr "Movie added to favorites")]))
  /\ fst (add_favorite sample_digest 6000 sample_salt (mkUser ana_id "ana" "a@x.com"
            (password ana) [] []) (JObj [("movieId", JStr "550")])
            (snd (add_favorite sample_digest 5000 sample_salt (mkUser ana_id "ana" "a@x.com"
                    (password ana) [] []) (JObj [("movieId", JStr "550")])
                    (mkWorld [mkUser ana_id "ana" "a@x.com" (password ana) [] []] true [])))) =
    Ret (mkResponse 200 (JObj [("success", JBool true); ("message", JStr "Movie added to favorites")]))
  /\ option_map favorites
       (find_user_by_id ana_id
          (users (snd (add_favorite sample_digest 6000 sample_salt (mkUser ana_id "ana" "a@x.com"
             (password ana) [] []) (JObj [("movieId", JStr "550")])
             (snd (add_favorite sample_digest 5000 sample_salt (mkUser ana_id "ana" "a@x.com"
                     (password ana) [] []) (JObj [("movieId", JStr "550")])
                     (mkWorld [mkUser ana_id "ana" "a@x.com" (password ana) [] []] true []))))))) =
    Some [mkFavorite 550 5000; mkFavorite 550 6000].
Proof. split; [|split]; vm_compute; reflexivity. Qed.

Lemma save_hashes_iff_password_modified_witness :
  (exists p, password (cur (set_password "newpw" (hydrate ana))) = Some p /\
     stored_password ana_id (snd (save sample_digest sample_salt
                                    (set_password "newpw" (hydrate ana)) sample_world)) =
       Some (Some (bcrypt_hash sample_digest sample_salt p)))
  /\ stored_password ana_id (snd (save sample_digest sample_salt
                                   (push_favorite (mkFavorite 7 9000) (hydrate ana)) sample_world)) =
     stored_password ana_id sample_world.
Proof.
  split.
  - destruct (proj1 (save_hashes_iff_password_modified sample_digest sample_salt
                       (set_password "newpw" (hydrate ana)) sample_world
                       (hydrate (mkUser ana_id "ana" "a@x.com"
                                   (Some (bcrypt_hash sample_digest sample_salt "newpw"))
                                   (favorites ana) []))
                       (snd (save sample_digest sample_salt
                               (set_password "newpw" (hydrate ana)) sample_world))
                       ltac:(vm_compute; reflexivity)) eq_refl) as (p & Hp & Hs & _).
    exists p. split; [exact Hp | exact Hs].
  - apply (proj2 (save_hashes_iff_password_modified sample_digest sample_salt
                    (push_favorite (mkFavorite 7 9000) (hydrate ana)) sample_world
                    (hydrate (mkUser ana_id "ana" "a@x.com" (password ana)
                                (favorites ana ++ [mkFavorite 7 9000])%list []))
                    (snd (save sample_digest sample_salt
                            (push_favorite (mkFavorite 7 9000) (hydrate ana)) sample_world))
                    ltac:(vm_compute; reflexivity)) eq_refl eq_refl).
Defined.

(** C10 counterexample: the string ["0"] is truthy, passes the check,
    and is stored as movie identifier 0. *)
Lemma add_favorite_string_zero_added :
  fst (add_favorite sample_digest 5000 sample_salt ana (JObj [("movieId", JStr "0")]) sample_world) =
    Ret (mkResponse 200 (JObj [("success", JBool true); ("message", JStr "Movie added to favorites")]))
  /\ option_map favorites
       (find_user_by_id ana_id
          (users (snd (add_favorite sample_digest 5000 sample_salt ana
                         (JObj [("movieId", JStr "0")]) sample_world)))) =
     Some (favorites ana ++ [mkFavorite 0 5000])%list.
Proof. split; vm_compute; reflexivity. Qed.

Lemma add_favorite_requires_movieId_witness :
  add_favorite sample_digest 5000 sample_salt ana (JObj [("movieId", JNum 0)]) sample_world =
  (Ret (mkResponse 400 (fail_body "Movie ID is required")), sample_world).
Proof.
  apply (add_favorite_requires_movieId sample_digest 5000 sample_salt ana
           (JObj [("movieId", JNum 0)]) sample_world).
  vm_compute. reflexivity.
Defined.

(** ** Witnesses of the further properties *)

Lemma bearer_token_of_header_witness :
  bearer_token (Some "Bearer eyJhbGciOiJIUzI1NiJ9.e30.c2ln") = Some "eyJhbGciOiJIUzI1NiJ9.e30.c2ln".
Proof. apply (bearer_token_of_header "eyJhbGciOiJIUzI1NiJ9.e30.c2ln"). vm_compute. reflexivity. Defined.

Lemma register_then_login_witness :
  fst (login sample_digest sample_sign (JObj [("email", JStr "b@x.com"); ("password", JStr "pw")])
         (snd (register sample_digest sample_sign bo_id sample_salt
                 (JObj [("username", JStr "bo"); ("email", JStr "b@x.com"); ("password", JStr "pw")])
                 sample_world))) =
  Ret (mkResponse 200
         (JObj [("success", JBool true); ("message", JStr "Login successful");
                ("user", JObj [("id", JStr bo_id); ("username", JStr "bo"); ("email", JStr "b@x.com")]);
                ("token", JStr (sample_sign (JObj [("userId", JStr bo_id); ("email", JStr "b@x.com")])))])).
Proof.
  apply (register_then_login sample_digest sample_sign bo_id sample_salt "bo" "b@x.com" "pw"
           sample_world); first [discriminate | vm_compute; reflexivity].
Defined.

Lemma register_token_passes_gate_witness :
  fst (authenticateToken bo_verify (Some "Bearer signed")
         (snd (register sample_digest sample_sign bo_id sample_salt
                 (JObj [("username", JStr "bo"); ("email", JStr "b@x.com"); ("password", JStr "pw")])
                 sample_world))) =
  Ret (GNext (mkUser bo_id "bo" "b@x.com" None [] [])).
Proof.
  apply (register_token_passes_gate sample_digest bo_verify sample_sign bo_id sample_salt
           "bo" "b@x.com" "pw" "signed" sample_world); first [discriminate | vm_compute; reflexivity].
Defined.

Lemma auth_missing_fields_witness :
  register sample_digest sample_sign bo_id sample_salt
    (JObj [("username", JStr "bo"); ("email", JStr "b@x.com")]) sample_world =
  (Ret (mkResponse 400 (fail_body "All fields are required")), sample_world)
  /\ login sample_digest sample_sign (JObj [("email", JStr "a@x.com"); ("password", JStr "")])
       sample_world =
     (Ret (mkResponse 400 (fail_body "Email and password are required")), sample_world).
Proof.
  split.
  - apply (proj1 (auth_missing_fields sample_digest sample_sign bo_id sample_salt
                    (JObj [("username", JStr "bo"); ("email", JStr "b@x.com")]) sample_world)).
    right; right; vm_compute; reflexivity.
  - apply (proj2 (auth_missing_fields sample_digest sample_sign bo_id sample_salt
                    (JObj [("email", JStr "a@x.com"); ("password", JStr "")]) sample_world)).
    right; vm_compute; reflexivity.
Defined.



Lemma favorites_without_record_witness :
  fst (get_favorites sample_catalog ana (mkWorld [] true [])) =
    Ret (mkResponse 500 (fail_body "Error fetching favorites"))
  /\ add_favorite sample_digest 5000 sample_salt ana (JObj [("movieId", JNum 7)]) (mkWorld [] true []) =
    (Ret (mkResponse 500 (fail_body "Error adding to favorites")), mkWorld [] true [ERead]).
Proof.
  destruct (favorites_without_record sample_digest sample_catalog 5000 sample_salt ana
              (JObj [("movieId", JNum 7)]) (mkWorld [] true []) (or_intror eq_refl)) as [A B].
  split; [exact A | apply B; vm_compute; reflexivity].
Defined.

Lemma catalog_query_defaults_witness :
  search_movies sample_tmdb (JObj [("query", JStr "")]) =
    mkResponse 400 (fail_body "Search query is required")
  /\ popular_movies sample_tmdb (JObj []) = popular_movies sample_tmdb (JObj [("page", JNum 1)])
  /\ search_movies sample_tmdb (JObj [("query", JStr "matrix")])
     = search_movies sample_tmdb (JObj [("query", JStr "matrix"); ("page", JNum 1)]).
Proof.
  split.
  - apply (proj1 (catalog_query_defaults sample_tmdb (JObj [("query", JStr "")]))).
    vm_compute. reflexivity.
  - split.
    + apply (proj2 (catalog_query_defaults sample_tmdb (JObj []))). reflexivity.
    + apply (proj2 (catalog_query_defaults sample_tmdb (JObj [("query", JStr "matrix")]))).
      reflexivity.
Defined.

Lemma catalog_rejection_responses_witness :
  popular_movies locked_tmdb (JObj [("page", JNum 2)]) =
    mkResponse 500 (JObj [("success", JBool false);
                          ("message", JStr "Error fetching movies from TMDB");
                          ("error", JStr "Invalid API key")])
  /\ search_movies locked_tmdb (JObj [("query", JStr "matrix")]) =
    mkResponse 500 (JObj [("success", JBool false); ("message", JStr "Error searching movies");
                          ("error", JStr "Invalid API key")])
  /\ movie_details locked_tmdb "550" =
    mkResponse 500 (JObj [("success", JBool false); ("message", JStr "Error fetching movie details");
                          ("error", JStr "Invalid API key")])
  /\ movie_genres locked_tmdb = mkResponse 500 (fail_body "Error fetching genres").
Proof.
  destruct (catalog_rejection_responses locked_tmdb
              (JObj [("status_code", JNum 7); ("status_message", JStr "Invalid API key")])
              "Request failed with status code 401" (JObj [("page", JNum 2)]) "550"
              (fun _ _ => eq_refl)) as (P & _ & D & G).
  destruct (catalog_rejection_responses locked_tmdb
              (JObj [("status_code", JNum 7); ("status_message", JStr "Invalid API key")])
              "Request failed with status code 401" (JObj [("query", JStr "matrix")]) "550"
              (fun _ _ => eq_refl)) as (_ & S & _ & _).
  split; [|split; [|split]].
  - exact P.
  - apply S. vm_compute. reflexivity.
  - exact D.
  - exact G.
Defined.

Lemma catalog_results_projection_witness :
  popular_movies sample_tmdb (JObj []) =
    mkResponse 200 (JObj [("success", JBool true);
                          ("results", JArr (map (projection popular_fields)
                                                (map sample_entry [1; 2]%nat)));
                          ("total_pages", JNum 1); ("total_results", JNum 2); ("page", JNum 1)])
  /\ popular_movies holey_tmdb (JObj []) =
    mkResponse 500 (JObj [("success", JBool false);
                          ("message", JStr "Error fetching movies from TMDB");
                          ("error", JStr "Cannot read properties of null (reading 'id')")])
  /\ search_movies sample_tmdb (JObj [("query", JStr "matrix")]) =
    mkResponse 200 (JObj [("success", JBool true);
                          ("results", JArr (map (projection search_fields) (map sample_entry [3]%nat)));
                          ("total_pages", JNum 1); ("total_results", JNum 1); ("page", JNum 1);
                          ("query", JStr "matrix")]).
Proof.
  split; [|split].
  - apply (proj1 (catalog_results_projection sample_tmdb (JObj [])
                    (sample_listing (map sample_entry [1; 2]%nat)) (map sample_entry [1; 2]%nat)
                    eq_refl)).
    + intros params. reflexivity.
    + repeat constructor; discriminate.
  - apply (proj1 (proj2 (catalog_results_projection holey_tmdb (JObj [])
                           (sample_listing [sample_entry 1; JNull]) [sample_entry 1; JNull]
                           eq_refl))).
    + intros params. reflexivity.
    + vm_compute. intuition discriminate.
    + right; left; reflexivity.
  - apply (proj2 (proj2 (catalog_results_projection sample_tmdb (JObj [("query", JStr "matrix")])
                           (sample_listing (map sample_entry [3]%nat)) (map sample_entry [3]%nat)
                           eq_refl))).
    + intros params. reflexivity.
    + vm_compute. reflexivity.
    + repeat constructor; discriminate.
Defined.

Lemma movie_details_bounds_witness :
  prop (prop (body (movie_details sample_tmdb "550")) "data") "cast"
    = JArr (firstn 10 (map sample_entry (seq 1 12)))
  /\ (length (firstn 10 (map sample_entry (seq 1 12))) <= 10)%nat
  /\ prop (prop (body (movie_details sample_tmdb "550")) "data") "crew"
    = JArr (firstn 5 (map sample_entry (seq 20 7)))
  /\ (length (firstn 5 (map sample_entry (seq 20 7))) <= 5)%nat
  /\ prop (prop (body (movie_details sample_tmdb "550")) "data") "similar"
    = JArr (firstn 6 (map sample_entry (seq 40 8)))
  /\ (length (firstn 6 (map sample_entry (seq 40 8))) <= 6)%nat.
Proof.
  assert (Ca : prop (prop (body (movie_details sample_tmdb "550")) "data") "cast"
               = JArr (firstn 10 (map sample_entry (seq 1 12)))) by (vm_compute; reflexivity).
  assert (Cr : prop (prop (body (movie_details sample_tmdb "550")) "data") "crew"
               = JArr (firstn 5 (map sample_entry (seq 20 7)))) by (vm_compute; reflexivity).
  assert (Si : prop (prop (body (movie_details sample_tmdb "550")) "data") "similar"
               = JArr (firstn 6 (map sample_entry (seq 40 8)))) by (vm_compute; reflexivity).
  split; [exact Ca|]. split; [exact (proj1 (movie_details_bounds sample_tmdb "550" _) Ca)|].
  split; [exact Cr|]. split; [exact (proj1 (proj2 (movie_details_bounds sample_tmdb "550" _)) Cr)|].
  split; [exact Si|]. exact (proj2 (proj2 (movie_details_bounds sample_tmdb "550" _)) Si).
Defined.

Lemma movie_details_sections_witness :
  (status (movie_details sample_tmdb "551") = 200
   /\ prop (prop (body (movie_details sample_tmdb "551")) "data") "cast" = JArr []
   /\ prop (prop (body (movie_details sample_tmdb "551")) "data") "crew" = JArr []
   /\ prop (prop (body (movie_details sample_tmdb "551")) "data") "videos" = JArr []
   /\ prop (prop (body (movie_details sample_tmdb "551")) "data") "similar" = JArr [])
  /\ (status (movie_details sample_tmdb "550") = 200
      /\ prop (prop (body (movie_details sample_tmdb "550")) "data") "cast"
         = JArr (firstn 10 (map sample_entry (seq 1 12)))
      /\ prop (prop (body (movie_details sample_tmdb "550")) "data") "crew"
         = JArr (firstn 5 (map sample_entry (seq 20 7)))
      /\ prop (prop (body (movie_details sample_tmdb "550")) "data") "videos"
         = JArr [JStr "trailer"; JStr "teaser"]
      /\ prop (prop (body (movie_details sample_tmdb "550")) "data") "similar"
         = JArr (firstn 6 (map sample_entry (seq 40 8)))).
Proof.
  split.
  - apply (proj1 (movie_details_sections sample_tmdb "551" [("id", JNum 551); ("title", JStr "Short")]
                    ltac:(vm_compute; reflexivity))); reflexivity.
  - apply (proj2 (movie_details_sections sample_tmdb "550" sample_details_fields
                    ltac:(vm_compute; reflexivity))); vm_compute; reflexivity.
Defined.
